(** * nrl_sdk_lib.converters.csv_to_geojson

    A shallow embedding of the CSV-to-GeoJSON converter of nrl-sdk-lib
    (src/nrl-sdk-lib/src/nrl_sdk_lib/converters/csv_to_geojson.py) and the
    properties of it that the specification states.

    Conventions.
    - A Python [str] is a [string] holding its UTF-8 bytes.
    - A [dict] read through [get]/[[]] only is a [gmap]; the dict whose
      iteration order is observable (feature_by_crs) is an association list.
    - Code that can raise returns a [result]; the exception carries the
      arguments of the f-string that builds its message.
    - Python's own [float], [uuid.UUID] and [str.lower] are an interface
      ([PyRuntime]); every theorem holds for each implementation of it. *)

From Stdlib Require Import Ascii QArith.
From stdpp Require Import gmap strings list fin_maps.

#[local] Close Scope Q_scope.


(** ** The part of the Python runtime the converter calls *)

Class PyRuntime := {
  (** the values of Python's [float] *)
  Float : Type;
  (** [float(s)]; [None] when it raises ValueError *)
  float_of : string -> option Float;
  (** the values of [uuid.UUID] *)
  Uuid : Type;
  (** [uuid.UUID(s)]; [None] when it raises ValueError *)
  UUID : string -> option Uuid;
  (** [s.lower()] *)
  lower : string -> string;
}.

(** ** Exceptions *)

(** The message of a ValueError, as the format of its f-string and the
    values put into it. *)
Inductive message :=
  (** f"Unknown Luftspenntype: {value}" *)
  | Unknown_Luftspenntype (value : option string)
  (** f"Unknown Masttype: {value}" *)
  | Unknown_Masttype (value : option string)
  (** f"Unknown Status: {value}" *)
  | Unknown_Status (value : option string)
  (** f"Unknown Tabell ID: {table_id}" *)
  | Unknown_Tabell_ID (table_id : option string)
  (** f"No valid UUID found in fields: {fields}" *)
  | No_valid_UUID_found_in_fields (fields : list string)
  (** f"Missing {field_name}" *)
  | Missing (field_name : string)
  (** f"{field_name} is not a valid number: {value}" *)
  | is_not_a_valid_number (field_name value : string)
  (** "LineString requires exactly 2 points" *)
  | LineString_requires_exactly_2_points
  (** f"Invalid coordinate values: {e}" *)
  | Invalid_coordinate_values (e : message)
  (** raised by [float(s)] itself *)
  | could_not_convert_string_to_float (s : string)
  (** raised by unpacking [got] values into [expected] names *)
  | values_to_unpack (expected got : nat)
  (** raised by [uuid.UUID(s)] itself *)
  | badly_formed_UUID (s : string).

Inductive exn :=
  | ValueError (msg : message)
  | KeyError (key : string)
  | IndexError.

Inductive result (A : Type) :=
  | Ok (a : A)
  | Raise (e : exn).
Arguments Ok {A} a.
Arguments Raise {A} e.

#[global] Instance result_ret : MRet result := fun A a => Ok a.
#[global] Instance result_bind : MBind result := fun A B f m =>
  match m with
  | Ok a => f a
  | Raise e => Raise e
  end.

(** [try: body except ValueError as e: raise ValueError(h e) from e] *)
Definition except_ValueError {A} (body : result A) (h : message -> message) : result A :=
  match body with
  | Raise (ValueError e) => Raise (ValueError (h e))
  | r => r
  end.

(** [for x in l] building a list, stopping at the first exception *)
Fixpoint for_each {A B} (f : A -> result B) (l : list A) : result (list B) :=
  match l with
  | [] => Ok []
  | x :: l' => y ← f x; ys ← for_each f l'; Ok (y :: ys)
  end.

(** ** Python values *)

(** [if value:] on a [str | None] *)
Definition truthy (value : option string) : bool :=
  match value with
  | Some s => negb (String.eqb s "")
  | None => false
  end.

(** [value.replace(old, new)] for one-character [old] and [new] *)
Fixpoint replace (old new : ascii) (value : string) : string :=
  match value with
  | EmptyString => EmptyString
  | String c rest =>
      String (if Ascii.eqb c old then new else c) (replace old new rest)
  end.

(** [mapping.get(value)] on a dict literal whose keys are distinct strings *)
Fixpoint dict_get {V} (mapping : list (string * V)) (value : option string) : option V :=
  match mapping with
  | [] => None
  | (k, v) :: rest =>
      if decide (value = Some k) then Some v else dict_get rest value
  end.

(** A row of csv.DictReader: column name to text. A line shorter than the
    header leaves its last columns None. *)
Abbreviation Row := (gmap string (option string)).

(** [row.get(field)] *)
Definition get (row : Row) (field : string) : option string :=
  mjoin (row !! field).

(** [row.get(field, default)] *)
Definition get_default (row : Row) (field default : string) : option string :=
  match row !! field with
  | Some value => value
  | None => Some default
  end.

(** [row[field]] *)
Definition item (row : Row) (field : string) : result (option string) :=
  match row !! field with
  | Some value => Ok value
  | None => Raise (KeyError field)
  end.

(** [l[i]] for a constant [i >= 0] *)
Definition index {A} (l : list A) (i : nat) : result A :=
  match l !! i with
  | Some x => Ok x
  | None => Raise IndexError
  end.

(** ** nrl_sdk_lib.models *)

(** Modelled from the spec: the enums of nrl_sdk_lib.models, which is not
    among the sources; the members are the ones the converter names. *)
Inductive LuftspennType := høgspent | lavspent | regional | bardun.

(** Modelled from the spec: nrl_sdk_lib.models.MastType. *)
Inductive MastType := høgspentmast | lavspentmast | regionalmast.

(** Modelled from the spec: nrl_sdk_lib.models.FeatureStatus. *)
Inductive FeatureStatus :=
  eksisterende | planlagt_oppført | planlagt_fjernet | fjernet.

(** Modelled from the spec: nrl_sdk_lib.models.LuftfartsHinderLyssetting. *)
Inductive LuftfartsHinderLyssetting :=
  | lyssatt
  | mellomintensitet_type_a | mellomintensitet_type_b | mellomintensitet_type_c
  | lavintensitet_type_a | lavintensitet_type_b
  | høyintensitet_type_a | høyintensitet_type_b.

(** Modelled from the spec: nrl_sdk_lib.models.LuftfartsHinderMerking. *)
Inductive LuftfartsHinderMerking := fargermerking | markør.

(** Modelled from the spec: nrl_sdk_lib.models.Høydereferanse. *)
Inductive Høydereferanse := topp | fot.

(** Modelled from the spec: nrl_sdk_lib.models.CrsProperties and Crs. *)
Record CrsProperties := { name : string }.
Record Crs := { crs_properties : CrsProperties }.

(** Modelled from the spec: nrl_sdk_lib.models.KomponentReferanse. *)
Record KomponentReferanse := { komponentkodeverdi : option string }.

(** Modelled from the spec: nrl_sdk_lib.models.Point and LineString; the
    [type] argument is the constructor. *)
Inductive Geometry `{PyRuntime} :=
  | Point (coordinates : list Float)
  | LineString (coordinates : list (list Float)).

(** Modelled from the spec: nrl_sdk_lib.models.NrlMast, with the keyword
    arguments the converter passes. *)
Module NrlMast.
Record t `{PyRuntime} := {
  komponentident : Uuid;
  status : FeatureStatus;
  verifisert_rapporteringsnøyaktighet : string;
  feature_type : string;
  mast_type : MastType;
  luftfartshinderlyssetting : option LuftfartsHinderLyssetting;
  luftfartshindermerking : option LuftfartsHinderMerking;
  høydereferanse : option Høydereferanse;
  vertikal_avstand : option Float;
}.
End NrlMast.

(** Modelled from the spec: nrl_sdk_lib.models.NrlLuftspenn, with the keyword
    arguments the converter passes; an argument that convert_guy_segments_rows
    does not pass ([nrl_mast], lighting, marking, [anleggsbredde]) is None. *)
Module NrlLuftspenn.
Record t `{PyRuntime} := {
  luftspenn_type : LuftspennType;
  komponentident : Uuid;
  nrl_mast : option (list Uuid);
  status : FeatureStatus;
  verifisert_rapporteringsnøyaktighet : string;
  feature_type : string;
  referanse : option KomponentReferanse;
  luftfartshinderlyssetting : option LuftfartsHinderLyssetting;
  luftfartshindermerking : option LuftfartsHinderMerking;
  anleggsbredde : option Float;
}.
End NrlLuftspenn.

(** Modelled from the spec: the two kinds of [properties] of a Feature. *)
Inductive Properties `{PyRuntime} :=
  | Mast (p : NrlMast.t)
  | Luftspenn (p : NrlLuftspenn.t).

(** Modelled from the spec: nrl_sdk_lib.models.Feature. *)
Record Feature `{PyRuntime} := {
  geometry : Geometry;
  properties : Properties;
}.

(** Modelled from the spec: nrl_sdk_lib.models.FeatureCollection. *)
Record FeatureCollection `{PyRuntime} := {
  crs : Crs;
  features : list Feature;
}.

(** [Crs(properties=CrsProperties(name=crs_name))] *)
Definition Crs_named (crs_name : string) : Crs :=
  {| crs_properties := {| name := crs_name |} |}.

(** [crs.properties.name] *)
Definition crs_name_of (c : Crs) : string := name (crs_properties c).

(** ** Enumeration resolvers *)

Definition luftspenn_type_mapping : list (string * LuftspennType) :=
  [ ("Ledning, høyspent", høgspent);
    ("Ledning, lavspent", lavspent);
    ("Ledning, regionalnett", regional) ].

Definition map_luftspenn_type (value : option string) : result LuftspennType :=
  match dict_get luftspenn_type_mapping value with
  | None => Raise (ValueError (Unknown_Luftspenntype value))
  | Some r => Ok r
  end.

Definition mast_type_mapping : list (string * MastType) :=
  [ ("Mast, høyspent", høgspentmast);
    ("Mast, lavspent", lavspentmast);
    ("Mast, regionalnett", regionalmast) ].

Definition map_mast_type (value : option string) : result MastType :=
  match dict_get mast_type_mapping value with
  | None => Raise (ValueError (Unknown_Masttype value))
  | Some r => Ok r
  end.

Definition feature_status_mapping : list (string * FeatureStatus) :=
  [ ("Eksisterende", eksisterende);
    ("eksisterende", eksisterende);
    ("Planlagt oppført", planlagt_oppført);
    ("planlagtOppført", planlagt_oppført);
    ("Planlagt fjernet", planlagt_fjernet);
    ("planlagtFjernet", planlagt_fjernet);
    ("Fjernet", fjernet);
    ("fjernet", fjernet) ].

Definition map_feature_status (value : option string) : result FeatureStatus :=
  match dict_get feature_status_mapping value with
  | None => Raise (ValueError (Unknown_Status value))
  | Some r => Ok r
  end.

Definition lighting_kind_mapping : list (string * LuftfartsHinderLyssetting) :=
  [ ("Lyssatt", lyssatt);
    ("Mellomintensitet, type A", mellomintensitet_type_a);
    ("Mellomintensitet, type B", mellomintensitet_type_b);
    ("Mellomintensitet, type C", mellomintensitet_type_c);
    ("Lavintensitet, type A", lavintensitet_type_a);
    ("Lavintensitet, type B", lavintensitet_type_b);
    ("Høyintensitet, type A", høyintensitet_type_a);
    ("Høyintensitet, type B", høyintensitet_type_b) ].

Definition map_lighting_kind (value : option string) : option LuftfartsHinderLyssetting :=
  if negb (truthy value) then None
  else dict_get lighting_kind_mapping value.

Definition marking_kind_mapping : list (string * LuftfartsHinderMerking) :=
  [ ("Fargemerking", fargermerking);
    ("Markør", markør) ].

Definition map_marking_kind (value : option string) : option LuftfartsHinderMerking :=
  if negb (truthy value) then None
  else dict_get marking_kind_mapping value.

Definition map_location_method (value : option string) : string :=
  if decide (value = Some "FOR-2020-10-16-2068, §5(1)") then "20230101_5-1"
  else "0".

(** ** Value coercion *)

(** The [for field in fields] loop of get_uuid; [None] when it runs out. *)
Fixpoint get_uuid_loop `{PyRuntime} (row : Row) (fields : list string) : option Uuid :=
  match fields with
  | [] => None
  | field :: rest =>
      match get row field with
      | Some value =>
          if truthy (Some value) then
            match UUID value with
            | Some u => Some u
            | None => get_uuid_loop row rest
            end
          else get_uuid_loop row rest
      | None => get_uuid_loop row rest
      end
  end.

Definition get_uuid `{PyRuntime} (row : Row) (fields : list string) : result Uuid :=
  match get_uuid_loop row fields with
  | Some u => Ok u
  | None => Raise (ValueError (No_valid_UUID_found_in_fields fields))
  end.

Definition parse_float `{PyRuntime} (value : option string) (field_name : string) : result Float :=
  match value with
  | None => Raise (ValueError (Missing field_name))
  | Some s =>
      match float_of (replace ","%char "."%char s) with
      | Some f => Ok f
      | None => Raise (ValueError (is_not_a_valid_number field_name s))
      end
  end.

Fixpoint parse_coordinates `{PyRuntime} (coords : list (option string)) : result (list Float) :=
  match coords with
  | [] => Ok []
  | Some c :: rest =>
      if negb (String.eqb c "") then
        match float_of (replace ","%char "."%char c) with
        | Some f => fs ← parse_coordinates rest; Ok (f :: fs)
        | None =>
            Raise (ValueError (could_not_convert_string_to_float (replace ","%char "."%char c)))
        end
      else parse_coordinates rest
  | None :: rest => parse_coordinates rest
  end.

(** ** Geometry and CRS *)

(** [coord[2] not in [None, ""]] *)
Definition not_in_None_empty (z : option string) : bool :=
  negb (bool_decide (z = None) || bool_decide (z = Some "")).

(** [all(coord[2] not in [None, ""] for coord in coordinates)]: the
    generator is consumed up to the first coordinate that fails the test. *)
Fixpoint all_have_z (coordinates : list (list (option string))) : result bool :=
  match coordinates with
  | [] => Ok true
  | coord :: rest =>
      z ← index coord 2;
      if not_in_None_empty z then all_have_z rest else Ok false
  end.

(** [[parse_float(c[1], "y"), parse_float(c[0], "x"), parse_float(c[2], "z")]] *)
Definition line_position_3d `{PyRuntime} (c : list (option string)) : result (list Float) :=
  c1 ← index c 1; y ← parse_float c1 "y";
  c0 ← index c 0; x ← parse_float c0 "x";
  c2 ← index c 2; z ← parse_float c2 "z";
  Ok [y; x; z].

(** [[parse_float(c[1], "y"), parse_float(c[0], "x")]] *)
Definition line_position_2d `{PyRuntime} (c : list (option string)) : result (list Float) :=
  c1 ← index c 1; y ← parse_float c1 "y";
  c0 ← index c 0; x ← parse_float c0 "x";
  Ok [y; x].

(** The body of the [try] of create_geometry. *)
Definition build_geometry `{PyRuntime}
    (coordinates : list (list (option string))) (is_line has_z : bool)
    : result (Geometry * Crs) :=
  if has_z then
    geometry ←
      (if is_line then
         coords ← for_each line_position_3d coordinates;
         Ok (LineString coords)
       else
         c ← index coordinates 0;
         parsed ← parse_coordinates c;
         match parsed with
         | [x; y; z] => Ok (Point [y; x; z])
         | _ => Raise (ValueError (values_to_unpack 3 (length parsed)))
         end);
    Ok (geometry, Crs_named "EPSG:5972")
  else
    geometry ←
      (if is_line then
         coords ← for_each line_position_2d coordinates;
         Ok (LineString coords)
       else
         c ← index coordinates 0;
         parsed ← parse_coordinates (take 2 c);
         match parsed with
         | [x; y] => Ok (Point [y; x])
         | _ => Raise (ValueError (values_to_unpack 2 (length parsed)))
         end);
    Ok (geometry, Crs_named "EPSG:25832").

Definition create_geometry `{PyRuntime}
    (coordinates : list (list (option string))) (is_line : bool)
    : result (Geometry * Crs) :=
  has_z ← all_have_z coordinates;
  let len_coordinates_value := 2 in
  if is_line && negb (Nat.eqb (length coordinates) len_coordinates_value) then
    Raise (ValueError LineString_requires_exactly_2_points)
  else
    except_ValueError (build_geometry coordinates is_line has_z)
      Invalid_coordinate_values.

(** ** Row classifier and feature assembler *)

(** [KomponentReferanse(komponentkodeverdi=row.get("ID", "")) if row.get("ID") else None] *)
Definition komponentreferanse_of (row : Row) : option KomponentReferanse :=
  if truthy (get row "ID")
  then Some {| komponentkodeverdi := get_default row "ID" "" |}
  else None.

(** [parse_float(row[field], field_name) if row.get(field) else None] *)
Definition optional_float `{PyRuntime} (row : Row) (field field_name : string)
    : result (option Float) :=
  if truthy (get row field) then
    value ← item row field;
    f ← parse_float value field_name;
    Ok (Some f)
  else Ok None.

Definition convert_overhead_structure_rows `{PyRuntime} (row : Row)
    : result (Feature * Crs) :=
  komponentident ← get_uuid row ["OverheadStructure_uuid"; "ID"];
  masttype ← map_mast_type (get row "Masttype (NRL)");
  feature_status ← map_feature_status (get row "Status (NRL)");
  let nøyaktighet := map_location_method (get row "Verifisert nøyaktighet (NRL)") in
  let lyssetting := map_lighting_kind (get row "Luftfartshinderlyssetting(NRL)") in
  let merking := map_marking_kind (get row "Luftfartshindermerking (NRL)") in
  høydereferanse ←
    (if truthy (get row "Hoydereferanse (NRL)") then
       value ← item row "Hoydereferanse (NRL)";
       let text := default "" value in
       Ok (if decide (lower text = "topp") then Some topp
           else if decide (lower text = "fot") then Some fot
           else None)
     else Ok None);
  max_height ← optional_float row "Vertikalavstand meter (NRL)" "Vertikalavstand";
  x ← item row "x";
  y ← item row "y";
  '(point, crs) ← create_geometry [[x; y; get_default row "z" ""]] false;
  Ok ({| geometry := point;
         properties := Mast {|
           NrlMast.komponentident := komponentident;
           NrlMast.status := feature_status;
           NrlMast.verifisert_rapporteringsnøyaktighet := nøyaktighet;
           NrlMast.feature_type := "NrlMast";
           NrlMast.mast_type := masttype;
           NrlMast.luftfartshinderlyssetting := lyssetting;
           NrlMast.luftfartshindermerking := merking;
           NrlMast.høydereferanse := høydereferanse;
           NrlMast.vertikal_avstand := max_height |} |}, crs).

(** The coordinates both line converters pass to create_geometry. *)
Definition line_coordinates (row : Row) : result (list (list (option string))) :=
  x1 ← item row "x1";
  y1 ← item row "y1";
  x2 ← item row "x2";
  y2 ← item row "y2";
  Ok [ [x1; y1; get_default row "z1" ""];
       [x2; y2; get_default row "z2" ""] ].

Definition convert_guy_segments_rows `{PyRuntime} (row : Row)
    : result (Feature * Crs) :=
  komponentident ← get_uuid row ["Guy_uuid"; "ID"];
  feature_status ← map_feature_status (get row "Status (NRL)");
  let nøyaktighet := map_location_method (get row "Vertikalavstand meter (NRL)") in
  coordinates ← line_coordinates row;
  '(linestring, crs) ← create_geometry coordinates true;
  let komponentreferanse := komponentreferanse_of row in
  Ok ({| geometry := linestring;
         properties := Luftspenn {|
           NrlLuftspenn.luftspenn_type := bardun;
           NrlLuftspenn.komponentident := komponentident;
           NrlLuftspenn.nrl_mast := None;
           NrlLuftspenn.status := feature_status;
           NrlLuftspenn.verifisert_rapporteringsnøyaktighet := nøyaktighet;
           NrlLuftspenn.feature_type := "NrlLuftspenn";
           NrlLuftspenn.referanse := komponentreferanse;
           NrlLuftspenn.luftfartshinderlyssetting := None;
           NrlLuftspenn.luftfartshindermerking := None;
           NrlLuftspenn.anleggsbredde := None |} |}, crs).

(** [[uuid.UUID(row[f"Mast_{i}_ObjectID"]) for i in [1, 2] if row.get(f"Mast_{i}_ObjectID")]] *)
Definition mast_references `{PyRuntime} (row : Row) : result (list Uuid) :=
  for_each
    (fun field =>
       value ← item row field;
       let text := default "" value in
       match UUID text with
       | Some u => Ok u
       | None => Raise (ValueError (badly_formed_UUID text))
       end)
    (filter (fun field => truthy (get row field) = true)
       ["Mast_1_ObjectID"; "Mast_2_ObjectID"]).

Definition convert_ac_linesegments_rows `{PyRuntime} (row : Row)
    : result (Feature * Crs) :=
  komponentident ← get_uuid row ["ACLineSegmentSpan_uuid"; "ID"];
  feature_status ← map_feature_status (get row "Status (NRL)");
  luftspennstype ← map_luftspenn_type (get row "Luftspenntype (NRL)");
  let nøyaktighet := map_location_method (get row "Verifisert nøyaktighet (NRL)") in
  let lyssetting := map_lighting_kind (Some "Luftfartshinderlyssetting(NRL)") in
  let merking := map_marking_kind (Some "Luftfartshindermerking(NRL)") in
  coordinates ← line_coordinates row;
  '(linestring, crs) ← create_geometry coordinates true;
  mast ← mast_references row;
  let komponentreferanse := komponentreferanse_of row in
  anleggsbredde ← optional_float row "Anleggsbredde meter (NRL)" "Anleggsbredde";
  Ok ({| geometry := linestring;
         properties := Luftspenn {|
           NrlLuftspenn.luftspenn_type := luftspennstype;
           NrlLuftspenn.komponentident := komponentident;
           NrlLuftspenn.nrl_mast := Some mast;
           NrlLuftspenn.status := feature_status;
           NrlLuftspenn.verifisert_rapporteringsnøyaktighet := nøyaktighet;
           NrlLuftspenn.feature_type := "NrlLuftspenn";
           NrlLuftspenn.referanse := komponentreferanse;
           NrlLuftspenn.luftfartshinderlyssetting := lyssetting;
           NrlLuftspenn.luftfartshindermerking := merking;
           NrlLuftspenn.anleggsbredde := anleggsbredde |} |}, crs).

Definition process_row `{PyRuntime} (row : Row) : result (Feature * Crs) :=
  let table_id := get row "Tabell ID" in
  if decide (table_id = Some "261") then
    betegnelse ← item row "Betegnelse";
    if decide (betegnelse = Some "Bardunline")
    then convert_guy_segments_rows row
    else convert_ac_linesegments_rows row
  else if decide (table_id = Some "109") then
    convert_overhead_structure_rows row
  else
    Raise (ValueError (Unknown_Tabell_ID table_id)).

(** ** Collection grouper *)

(** [feature_by_crs.setdefault(crs_name, []).append(feature)] on a dict
    kept in insertion order. *)
Fixpoint setdefault_append `{PyRuntime}
    (feature_by_crs : list (string * list Feature))
    (crs_name : string) (feature : Feature) : list (string * list Feature) :=
  match feature_by_crs with
  | [] => [(crs_name, [feature])]
  | (k, fs) :: rest =>
      if decide (k = crs_name) then (k, fs ++ [feature]) :: rest
      else (k, fs) :: setdefault_append rest crs_name feature
  end.

(** The [for row in reader] loop of _process_csv_file. *)
Fixpoint process_rows `{PyRuntime} (rows : list Row)
    (feature_by_crs : list (string * list Feature))
    : result (list (string * list Feature)) :=
  match rows with
  | [] => Ok feature_by_crs
  | row :: rest =>
      '(feature, crs) ← process_row row;
      let crs_name := crs_name_of crs in
      process_rows rest (setdefault_append feature_by_crs crs_name feature)
  end.

(** _process_csv_file, on the rows csv.DictReader yields. *)
Definition _process_csv_file `{PyRuntime} (rows : list Row)
    : result (list FeatureCollection) :=
  feature_by_crs ← process_rows rows [];
  Ok (map (fun '(crs_name, features) =>
             {| crs := Crs_named crs_name; features := features |})
          feature_by_crs).

(** ** test_data_generator.cli

    The number of elements of each kind that main asks the generator for:
    [(args.total_elements + 1) // 2] when --total-elements is given and is
    not 0, [args.num_elements] otherwise. Python's int is unbounded and
    [//] rounds down. *)
Module Cli.

Definition num_each (total_elements : option Z) (num_elements : Z) : Z :=
  match total_elements with
  | Some total => if (total =? 0)%Z then num_elements else ((total + 1) / 2)%Z
  | None => num_elements
  end.

End Cli.

(** ** A reference runtime

    An implementation of [PyRuntime] to run the converter on concrete rows.
    It agrees with CPython on the texts the examples use: [float_of] on plain
    decimal literals (an optional sign, digits, an optional fraction), read
    as exact rationals; [UUID] on texts made of hexadecimal digits and
    hyphens; [lower] on ASCII text. Other texts are rejected, or left as
    they are by [lower]. *)
Module Reference.

Definition digit_of (c : ascii) : option Z :=
  let n := Z.of_N (N_of_ascii c) in
  if (48 <=? n)%Z && (n <=? 57)%Z then Some (n - 48)%Z else None.

Definition hex_digit_of (c : ascii) : option N :=
  let n := N_of_ascii c in
  if (48 <=? n)%N && (n <=? 57)%N then Some (n - 48)%N
  else if (65 <=? n)%N && (n <=? 70)%N then Some (n - 55)%N
  else if (97 <=? n)%N && (n <=? 102)%N then Some (n - 87)%N
  else None.

(** Digits after the decimal point: [acc] is the value read so far, scaled
    by [scale]. *)
Fixpoint fraction (s : string) (acc : Z) (scale : positive) : option Q :=
  match s with
  | EmptyString => Some (Qred (Qmake acc scale))
  | String c rest =>
      d ← digit_of c; fraction rest (10 * acc + d)%Z (10 * scale)%positive
  end.

(** Digits before the decimal point; [seen] records that there was one. *)
Fixpoint whole (s : string) (acc : Z) (seen : bool) : option Q :=
  match s with
  | EmptyString => if seen then Some (Qred (Qmake acc 1)) else None
  | String c rest =>
      if Ascii.eqb c "."%char then
        if seen || negb (String.eqb rest "") then fraction rest acc 1 else None
      else d ← digit_of c; whole rest (10 * acc + d)%Z true
  end.

Definition decimal (s : string) : option Q :=
  match s with
  | String "-" rest => Qopp <$> whole rest 0 false
  | String "+" rest => whole rest 0 false
  | _ => whole s 0 false
  end.

Fixpoint hex_value (s : string) (acc : N) (digits : nat) : option (N * nat) :=
  match s with
  | EmptyString => Some (acc, digits)
  | String c rest =>
      if Ascii.eqb c "-"%char then hex_value rest acc digits
      else d ← hex_digit_of c; hex_value rest (16 * acc + d)%N (S digits)
  end.

Definition uuid (s : string) : option N :=
  '(value, digits) ← hex_value s 0 0;
  if Nat.eqb digits 32 then Some value else None.

Definition ascii_lower (c : ascii) : ascii :=
  let n := N_of_ascii c in
  if (65 <=? n)%N && (n <=? 90)%N then ascii_of_N (n + 32) else c.

Fixpoint str_lower (s : string) : string :=
  match s with
  | EmptyString => EmptyString
  | String c rest => String (ascii_lower c) (str_lower rest)
  end.

#[local] Instance runtime : PyRuntime := {|
  Float := Q;
  float_of := decimal;
  Uuid := N;
  UUID := uuid;
  lower := str_lower;
|}.

End Reference.

(** ** Rows to run the converter on

    The rows of tests/test_csv_to_geojson.py (test_csv_multiple_crs,
    test_csv_missing_status, test_csv_with_anleggsbredde), and variants
    of them. *)
Module Rows.

Definition mast_with_z : Row :=
  list_to_map
    [ ("Tabell ID", Some "109");
      ("OverheadStructure_uuid", Some "550e8400-e29b-41d4-a716-446655440000");
      ("Masttype (NRL)", Some "Mast, høyspent");
      ("Status (NRL)", Some "Eksisterende");
      ("x", Some "100"); ("y", Some "200"); ("z", Some "10") ].

Definition mast_without_z : Row :=
  list_to_map
    [ ("Tabell ID", Some "109");
      ("OverheadStructure_uuid", Some "550e8400-e29b-41d4-a716-446655440001");
      ("Masttype (NRL)", Some "Mast, høyspent");
      ("Status (NRL)", Some "Eksisterende");
      ("x", Some "100"); ("y", Some "200"); ("z", Some "") ].

Definition mast_empty_status : Row :=
  <["Status (NRL)" := Some ""]> mast_with_z.

Definition unknown_table : Row :=
  <["Tabell ID" := Some "999"]> mast_with_z.

(** The luftspenn of test_csv_with_anleggsbredde, with lighting and marking
    filled in under the column names of both converters. *)
Definition ac_line_lit_and_marked : Row :=
  list_to_map
    [ ("Tabell ID", Some "261");
      ("Betegnelse", Some "Ledning");
      ("ACLineSegmentSpan_uuid", Some "550e8400-e29b-41d4-a716-446655440000");
      ("Status (NRL)", Some "Eksisterende");
      ("Luftspenntype (NRL)", Some "Ledning, høyspent");
      ("Anleggsbredde meter (NRL)", Some "5.5");
      ("Luftfartshinderlyssetting(NRL)", Some "Lyssatt");
      ("Luftfartshindermerking(NRL)", Some "Fargemerking");
      ("Luftfartshindermerking (NRL)", Some "Fargemerking");
      ("x1", Some "100"); ("y1", Some "200"); ("z1", Some "10");
      ("x2", Some "300"); ("y2", Some "400"); ("z2", Some "20") ].

(** The guy segment of test_csv_guy_segment_missing_uuid. *)
Definition guy_without_uuid : Row :=
  list_to_map
    [ ("Tabell ID", Some "261");
      ("Betegnelse", Some "Bardunline");
      ("Guy_uuid", Some "");
      ("Status (NRL)", Some "Eksisterende");
      ("x1", Some "100"); ("y1", Some "200"); ("z1", Some "10");
      ("x2", Some "300"); ("y2", Some "400"); ("z2", Some "20") ].

(** The same guy segment, identified. *)
Definition guy : Row :=
  <["Guy_uuid" := Some "0291c89b-8294-4c5c-9061-445149e68330"]>
    (<["ID" := Some "188488519"]> guy_without_uuid).

End Rows.

(** ** Vocabulary of the specification *)

(** The coordinate positions of a geometry: one for a Point, the listed
    ones for a LineString. *)
Definition positions `{PyRuntime} (g : Geometry) : list (list Float) :=
  match g with
  | Point p => [p]
  | LineString ps => ps
  end.

(** A supplied coordinate has a non-empty third component. *)
Definition has_elevation (coord : list (option string)) : Prop :=
  ∃ z, coord !! 2 = Some (Some z) ∧ z ≠ "".

(** A component is text that [float] reads as [f] once its commas are dots. *)
Definition reads_as `{PyRuntime} (component : option string) (f : Float) : Prop :=
  ∃ text, component = Some text ∧
          float_of (replace ","%char "."%char text) = Some f.

(** A component is numeric text: it is not empty and reads as [f]. *)
Definition numeric `{PyRuntime} (component : option string) (f : Float) : Prop :=
  component ≠ Some "" ∧ reads_as component f.

(** The position [p] is the coordinate [c] read as floats, with its first
    two components exchanged: (y, x, z) when [three_d], (y, x) otherwise. *)
Definition swapped `{PyRuntime} (three_d : bool)
    (c : list (option string)) (p : list Float) : Prop :=
  ∃ x y fx fy,
    c !! 0 = Some x ∧ c !! 1 = Some y ∧ reads_as x fx ∧ reads_as y fy ∧
    if three_d
    then ∃ z fz, c !! 2 = Some z ∧ reads_as z fz ∧ p = [fy; fx; fz]
    else p = [fy; fx].

(** The CRS identifier create_geometry pairs with 3D and with 2D geometry. *)
Definition crs_for (three_d : bool) : string :=
  if three_d then "EPSG:5972" else "EPSG:25832".

(** get_uuid passes over a field: it is absent, None, empty, or its text is
    not a UUID. *)
Definition skipped `{PyRuntime} (row : Row) (field : string) : Prop :=
  row !! field = None ∨ row !! field = Some None ∨
  row !! field = Some (Some "") ∨
  ∃ text, row !! field = Some (Some text) ∧ UUID text = None.

(** A field holds text that parses as the UUID [u]. *)
Definition holds_uuid `{PyRuntime} (row : Row) (field : string) (u : Uuid) : Prop :=
  ∃ text, row !! field = Some (Some text) ∧ text ≠ "" ∧ UUID text = Some u.

(** The distinct elements of a list, in the order of their first occurrence. *)
Fixpoint first_occurrences (l : list string) : list string :=
  match l with
  | [] => []
  | x :: rest => x :: filter (λ y, y ≠ x) (first_occurrences rest)
  end.

(** The features of a converted batch that carry the CRS tag [tag], in
    batch order. *)
Definition features_tagged `{PyRuntime} (tag : string)
    (converted : list (Feature * Crs)) : list Feature :=
  (filter (λ fc, crs_name_of fc.2 = tag) converted).*1.

(** One turn of the loop of _process_csv_file, once the row is converted. *)
Definition accumulate `{PyRuntime} (feature_by_crs : list (string * list Feature))
    (fc : Feature * Crs) : list (string * list Feature) :=
  setdefault_append feature_by_crs (crs_name_of fc.2) fc.1.

(** The geometry of a feature has the dimension its CRS tag stands for. *)
Definition dimension_consistent `{PyRuntime} (tag : string) (feature : Feature) : Prop :=
  (tag = "EPSG:25832" ∧ Forall (λ p, length p = 2) (positions (geometry feature))) ∨
  (tag = "EPSG:5972" ∧ Forall (λ p, length p = 3) (positions (geometry feature))).

(** The category discriminator of a row names no record type. *)
Definition unknown_category (row : Row) : Prop :=
  get row "Tabell ID" ≠ Some "261" ∧ get row "Tabell ID" ≠ Some "109".

(** The attributes both kinds of properties carry. *)
Definition status_of `{PyRuntime} (p : Properties) : FeatureStatus :=
  match p with
  | Mast m => NrlMast.status m
  | Luftspenn l => NrlLuftspenn.status l
  end.

Definition komponentident_of `{PyRuntime} (p : Properties) : Uuid :=
  match p with
  | Mast m => NrlMast.komponentident m
  | Luftspenn l => NrlLuftspenn.komponentident l
  end.

Definition nøyaktighet_of `{PyRuntime} (p : Properties) : string :=
  match p with
  | Mast m => NrlMast.verifisert_rapporteringsnøyaktighet m
  | Luftspenn l => NrlLuftspenn.verifisert_rapporteringsnøyaktighet l
  end.

Definition feature_type_of `{PyRuntime} (p : Properties) : string :=
  match p with
  | Mast m => NrlMast.feature_type m
  | Luftspenn l => NrlLuftspenn.feature_type l
  end.

(** The columns get_uuid is given on each assembly path. *)
Definition identifier_fields (row : Row) : list string :=
  if decide (get row "Tabell ID" = Some "109")
  then ["OverheadStructure_uuid"; "ID"]
  else if decide (row !! "Betegnelse" = Some (Some "Bardunline"))
  then ["Guy_uuid"; "ID"]
  else ["ACLineSegmentSpan_uuid"; "ID"].

(** The features of the collections that carry the CRS tag [tag]. *)
Definition features_under `{PyRuntime} (tag : string)
    (collections : list FeatureCollection) : list Feature :=
  concat (features <$> filter (λ c, crs_name_of (crs c) = tag) collections).

(** The parse errors create_geometry wraps: for a line, parse_float's
    error on the y, x or z of a coordinate; for a point, float's own error
    or an unpacking of the wrong number of values. *)
Definition line_parse_error (m : message) : Prop :=
  ∃ field_name, field_name ∈ ["y"; "x"; "z"] ∧
    (m = Missing field_name ∨ ∃ text, m = is_not_a_valid_number field_name text).

Definition point_parse_error (m : message) : Prop :=
  (∃ text, m = could_not_convert_string_to_float text) ∨
  ∃ expected got, m = values_to_unpack expected got ∧ got ≠ expected.

(** The geometry made of the positions [ps]: all of them for a line, the
    first for a point. *)
Definition geometry_of `{PyRuntime} (is_line : bool) (ps : list (list Float))
    : option Geometry :=
  if is_line then Some (LineString ps) else Point <$> head ps.

(** The columns the converters read with [row[...]] without a guard. *)
Definition mandatory_columns : list string :=
  ["Betegnelse"; "x"; "y"; "x1"; "y1"; "x2"; "y2"].

(** An error of converting [row]: a ValueError other than the arity error
    of create_geometry, or the KeyError of a mandatory column that the row
    does not have. *)
Definition row_error (row : Row) (e : exn) : Prop :=
  (∃ m, e = ValueError m ∧ m ≠ LineString_requires_exactly_2_points) ∨
  (∃ column, e = KeyError column ∧ row !! column = None ∧
             column ∈ mandatory_columns).

(** The column map_location_method is given on each assembly path. *)
Definition accuracy_column (row : Row) : string :=
  if decide (get row "Tabell ID" = Some "261" ∧
             row !! "Betegnelse" = Some (Some "Bardunline"))
  then "Vertikalavstand meter (NRL)"
  else "Verifisert nøyaktighet (NRL)".

(** The texts of the mast-reference columns that are there and not empty,
    first column first. *)
Definition mast_reference_texts (row : Row) : list string :=
  omap (λ column, match get row column with
                  | Some text => if truthy (Some text) then Some text else None
                  | None => None
                  end)
    ["Mast_1_ObjectID"; "Mast_2_ObjectID"].

(** The columns process_row looks up, on one path or another. *)
Definition columns_read : list string :=
  [ "Tabell ID"; "Betegnelse"; "ID"; "Status (NRL)";
    "Verifisert nøyaktighet (NRL)"; "Vertikalavstand meter (NRL)";
    "OverheadStructure_uuid"; "Masttype (NRL)";
    "Luftfartshinderlyssetting(NRL)"; "Luftfartshindermerking (NRL)";
    "Hoydereferanse (NRL)"; "x"; "y"; "z";
    "Guy_uuid"; "ACLineSegmentSpan_uuid"; "Luftspenntype (NRL)";
    "x1"; "y1"; "z1"; "x2"; "y2"; "z2";
    "Mast_1_ObjectID"; "Mast_2_ObjectID"; "Anleggsbredde meter (NRL)" ].

(** The columns whose text is resolved without ever failing the record. *)
Definition lenient_columns : list string :=
  [ "Luftfartshinderlyssetting(NRL)"; "Luftfartshindermerking (NRL)";
    "Hoydereferanse (NRL)"; "Verifisert nøyaktighet (NRL)" ].

(** Two conversions end alike: in the same error, or in features of the
    same geometry, CRS, status and identifier. *)
Definition same_outcome `{PyRuntime} (o1 o2 : result (Feature * Crs)) : Prop :=
  match o1, o2 with
  | Ok (f1, c1), Ok (f2, c2) =>
      c1 = c2 ∧ geometry f1 = geometry f2 ∧
      status_of (properties f1) = status_of (properties f2) ∧
      komponentident_of (properties f1) = komponentident_of (properties f2)
  | Raise e1, Raise e2 => e1 = e2
  | _, _ => False
  end.

(** * Properties *)

(** ** The error monad *)

Lemma bind_Ok {A B} (m : result A) (f : A → result B) (b : B) :
  m ≫= f = Ok b → ∃ a, m = Ok a ∧ f a = Ok b.
Proof. destruct m as [a|e]; [eauto | discriminate]. Qed.

Lemma except_ValueError_Ok {A} (body : result A) h (a : A) :
  except_ValueError body h = Ok a → body = Ok a.
Proof. by destruct body as [|[]]. Qed.

(** Splits every hypothesis [m ≫= f = Ok b] into its two steps. *)
Ltac bind_inv :=
  repeat match goal with
  | H : _ ≫= _ = Ok _ |- _ =>
      let a := fresh "a" in
      let Ha := fresh "Ha" in
      apply bind_Ok in H as (a & Ha & H)
  | H : Ok _ = Ok _ |- _ => injection H as H
  | H : Raise _ = Ok _ |- _ => discriminate H
  | H : mret _ = Ok _ |- _ => injection H as H
  end.

Lemma for_each_Ok {A B} (f : A → result B) (l : list A) (ys : list B) :
  for_each f l = Ok ys → Forall2 (λ x y, f x = Ok y) l ys.
Proof.
  revert ys. induction l as [|x l IH]; intros ys Hl; simpl in Hl.
  - injection Hl as <-. constructor.
  - bind_inv. subst ys. constructor; auto.
Qed.

Lemma for_each_all_Ok {A B} (f : A → result B) (l : list A) (ys : list B) :
  Forall2 (λ x y, f x = Ok y) l ys → for_each f l = Ok ys.
Proof. induction 1 as [|x y l ys Hx _ IH]; simpl; [done|]. by rewrite Hx, IH. Qed.

(** ** Python values *)

Lemma truthy_true (value : option string) :
  truthy value = true ↔ ∃ s, value = Some s ∧ s ≠ "".
Proof.
  destruct value as [s|]; simpl.
  - rewrite negb_true_iff, String.eqb_neq. split.
    + intros Hs. by exists s.
    + by intros (s' & [= <-] & Hs).
  - split; [done | by intros (s & ? & _)].
Qed.

Lemma dict_get_None {V} (mapping : list (string * V)) (value : option string) :
  (∀ s, value = Some s → s ∉ mapping.*1) → dict_get mapping value = None.
Proof.
  induction mapping as [|[k v] mapping IH]; intros Hout; simpl; [done|].
  case_decide as Hk.
  - exfalso. apply (Hout k Hk). simpl. left.
  - apply IH. intros s Hs Hin. apply (Hout s Hs). simpl. by right.
Qed.

(** ** Enumeration resolvers *)

(** C6. The required resolvers (span type, mast type, status) raise their
    "Unknown ..." ValueError, carrying the raw value, on every input that is
    not one of their accepted strings, the empty string and None included.
    The optional resolvers (lighting, marking) return None on None and on
    the empty string, and return None without raising on every non-empty
    text outside their accepted strings. So the empty string makes
    map_feature_status raise and map_lighting_kind return None. *)
Theorem required_enums_raise_optional_enums_absent :
  (∀ value : option string,
     (∀ s, value = Some s →
        s ∉ ["Ledning, høyspent"; "Ledning, lavspent"; "Ledning, regionalnett"]) →
     map_luftspenn_type value = Raise (ValueError (Unknown_Luftspenntype value))) ∧
  (∀ value : option string,
     (∀ s, value = Some s →
        s ∉ ["Mast, høyspent"; "Mast, lavspent"; "Mast, regionalnett"]) →
     map_mast_type value = Raise (ValueError (Unknown_Masttype value))) ∧
  (∀ value : option string,
     (∀ s, value = Some s →
        s ∉ ["Eksisterende"; "eksisterende"; "Planlagt oppført"; "planlagtOppført";
             "Planlagt fjernet"; "planlagtFjernet"; "Fjernet"; "fjernet"]) →
     map_feature_status value = Raise (ValueError (Unknown_Status value))) ∧
  (∀ value : option string,
     value = None ∨ value = Some "" →
     map_luftspenn_type value = Raise (ValueError (Unknown_Luftspenntype value)) ∧
     map_mast_type value = Raise (ValueError (Unknown_Masttype value)) ∧
     map_feature_status value = Raise (ValueError (Unknown_Status value)) ∧
     map_lighting_kind value = None ∧
     map_marking_kind value = None) ∧
  (∀ s : string,
     s ∉ ["Lyssatt"; "Mellomintensitet, type A"; "Mellomintensitet, type B";
          "Mellomintensitet, type C"; "Lavintensitet, type A";
          "Lavintensitet, type B"; "Høyintensitet, type A";
          "Høyintensitet, type B"] →
     map_lighting_kind (Some s) = None) ∧
  (∀ s : string,
     s ∉ ["Fargemerking"; "Markør"] → map_marking_kind (Some s) = None).
Proof.
  split_and!.
  - intros value Hout. unfold map_luftspenn_type.
    by rewrite (dict_get_None luftspenn_type_mapping value Hout).
  - intros value Hout. unfold map_mast_type.
    by rewrite (dict_get_None mast_type_mapping value Hout).
  - intros value Hout. unfold map_feature_status.
    by rewrite (dict_get_None feature_status_mapping value Hout).
  - by intros value [-> | ->].
  - intros s Hout. unfold map_lighting_kind.
    destruct (truthy (Some s)); [|done].
    apply dict_get_None. by intros _ [= <-].
  - intros s Hout. unfold map_marking_kind.
    destruct (truthy (Some s)); [|done].
    apply dict_get_None. by intros _ [= <-].
Qed.

Lemma required_enums_raise_optional_enums_absent_witness :
  map_feature_status (Some "InvalidStatus")
    = Raise (ValueError (Unknown_Status (Some "InvalidStatus"))) ∧
  (map_feature_status (Some "") = Raise (ValueError (Unknown_Status (Some ""))) ∧
   map_lighting_kind (Some "") = None) ∧
  map_lighting_kind (Some "Blinkende") = None.
Proof.
  pose proof required_enums_raise_optional_enums_absent
    as (_ & _ & Hstatus & Hempty & Hlighting & _).
  split_and!.
  - apply Hstatus. intros s [= <-]. compute_done.
  - apply (Hempty (Some "")). by right.
  - apply (Hempty (Some "")). by right.
  - apply Hlighting. compute_done.
Defined.

(** ** Value coercion *)

Lemma get_uuid_loop_skipped `{PyRuntime} (row : Row) (field : string) (rest : list string) :
  skipped row field →
  get_uuid_loop row (field :: rest) = get_uuid_loop row rest.
Proof.
  unfold skipped. intros Hskip. simpl. unfold get.
  destruct (row !! field) as [[value|]|] eqn:Hfield; simpl; [|done..].
  destruct Hskip as [?|[?|[[= ->]|(text & [= <-] & Htext)]]]; try done.
  rewrite Htext. by destruct (negb _).
Qed.

Lemma get_uuid_loop_holds `{PyRuntime} (row : Row) (field : string) (rest : list string) u :
  holds_uuid row field u →
  get_uuid_loop row (field :: rest) = Some u.
Proof.
  unfold holds_uuid. intros (text & Hfield & Htext & Hu). simpl. unfold get.
  rewrite Hfield. simpl. rewrite Hu.
  by apply String.eqb_neq in Htext as ->.
Qed.

Lemma get_uuid_loop_all_skipped `{PyRuntime} (row : Row) (fields : list string) :
  Forall (skipped row) fields → get_uuid_loop row fields = None.
Proof.
  induction 1 as [|field rest Hskip _ IH]; [done|].
  by rewrite get_uuid_loop_skipped.
Qed.

(** C7. get_uuid returns the UUID of the first field, in the order given,
    that holds text parsing as a UUID; fields that are absent, None, empty
    or malformed are passed over. When every field is passed over it raises
    the "No valid UUID found in fields" ValueError carrying all the fields
    tried. For the candidates A = "invalid", B = a valid UUID text, it
    returns the UUID of B. *)
Theorem get_uuid_first_valid_field `{PyRuntime} (row : Row) :
  (∀ (before after : list string) (field : string) (u : Uuid),
     Forall (skipped row) before →
     holds_uuid row field u →
     get_uuid row (before ++ field :: after) = Ok u) ∧
  (∀ fields : list string,
     Forall (skipped row) fields →
     get_uuid row fields
       = Raise (ValueError (No_valid_UUID_found_in_fields fields))) ∧
  (∀ (A B text : string) (u : Uuid),
     row !! A = Some (Some "invalid") → UUID "invalid" = None →
     row !! B = Some (Some text) → text ≠ "" → UUID text = Some u →
     get_uuid row [A; B] = Ok u).
Proof.
  assert (∀ before after field u,
            Forall (skipped row) before → holds_uuid row field u →
            get_uuid row (before ++ field :: after) = Ok u) as Hfirst.
  { intros before after field u Hbefore Hfield. unfold get_uuid.
    replace (get_uuid_loop row (before ++ field :: after)) with (Some u); [done|].
    induction Hbefore as [|b before Hb _ IH]; simpl app.
    - symmetry. by apply get_uuid_loop_holds.
    - by rewrite get_uuid_loop_skipped. }
  split_and!.
  - exact Hfirst.
  - intros fields Hall. unfold get_uuid.
    by rewrite get_uuid_loop_all_skipped.
  - intros A B text u HA Hinvalid HB Htext Hu.
    apply (Hfirst [A] [] B u).
    + constructor; [|constructor]. do 3 right. by exists "invalid".
    + by exists text.
Qed.

Lemma get_uuid_first_valid_field_witness :
  let row : Row :=
    <["field1" := Some "invalid"]>
      (<["field2" := Some "550e8400-e29b-41d4-a716-446655440000"]> ∅) in
  @get_uuid Reference.runtime row ["field1"; "field2"]
    = Ok 113059749145936325402354257176981405696%N ∧
  @get_uuid Reference.runtime (<["field2" := Some "also-invalid"]> row)
      ["field1"; "field2"; "field3"]
    = Raise (ValueError (No_valid_UUID_found_in_fields ["field1"; "field2"; "field3"])).
Proof.
  intros row. split.
  - apply (proj2 (proj2 (@get_uuid_first_valid_field Reference.runtime row))
             "field1" "field2" "550e8400-e29b-41d4-a716-446655440000");
      [reflexivity | reflexivity | reflexivity | compute_done | reflexivity].
  - apply (proj1 (proj2 (@get_uuid_first_valid_field Reference.runtime
                           (<["field2" := Some "also-invalid"]> row)))).
    apply Forall_cons_2; [|apply Forall_cons_2; [|apply Forall_cons_2; [|apply Forall_nil_2]]].
    + do 3 right. by exists "invalid".
    + do 3 right. by exists "also-invalid".
    + by left.
Defined.

(** C8. parse_float turns every comma into a dot before it calls float, so
    a text with a decimal comma and the same text with a decimal point give
    the same result; "123,45" and "123.45" both give the float that
    float("123.45") is. On None it raises the "Missing <field>" ValueError,
    and on text that float rejects the "<field> is not a valid number"
    ValueError; both carry the field name. *)
Theorem parse_float_decimal_separators `{PyRuntime} (field_name : string) :
  (∀ text : string,
     float_of (replace ","%char "."%char text)
       = float_of (replace ","%char "."%char (replace ","%char "."%char text)) ∧
     ∀ f, float_of (replace ","%char "."%char text) = Some f →
          parse_float (Some text) field_name = Ok f ∧
          parse_float (Some (replace ","%char "."%char text)) field_name = Ok f) ∧
  (∀ f, float_of "123.45" = Some f →
        parse_float (Some "123,45") field_name = Ok f ∧
        parse_float (Some "123.45") field_name = Ok f) ∧
  parse_float None field_name = Raise (ValueError (Missing field_name)) ∧
  (∀ text : string,
     float_of (replace ","%char "."%char text) = None →
     parse_float (Some text) field_name
       = Raise (ValueError (is_not_a_valid_number field_name text))).
Proof.
  assert (∀ text, replace ","%char "."%char (replace ","%char "."%char text)
                  = replace ","%char "."%char text) as Hidem.
  { induction text as [|c text IH]; simpl; [done|].
    rewrite IH. f_equal.
    destruct (Ascii.eqb c ","%char) eqn:Hc; [done | by rewrite Hc]. }
  split_and!.
  - intros text. split; [by rewrite Hidem|].
    intros f Hf. unfold parse_float. by rewrite Hidem, Hf.
  - intros f Hf. unfold parse_float. simpl. by rewrite Hf.
  - done.
  - intros text Htext. unfold parse_float. by rewrite Htext.
Qed.

Lemma parse_float_decimal_separators_witness :
  (@parse_float Reference.runtime (Some "123,45") "test_field" = Ok (Qmake 2469 20) ∧
   @parse_float Reference.runtime (Some "123.45") "test_field" = Ok (Qmake 2469 20)) ∧
  @parse_float Reference.runtime (Some "not_a_number") "test_field"
    = Raise (ValueError (is_not_a_valid_number "test_field" "not_a_number")).
Proof.
  pose proof (@parse_float_decimal_separators Reference.runtime "test_field")
    as (_ & Hvalue & _ & Hinvalid).
  split.
  - apply Hvalue. reflexivity.
  - apply Hinvalid. reflexivity.
Defined.

(** ** Geometry and CRS *)

Lemma not_in_None_empty_true (z : option string) :
  not_in_None_empty z = true ↔ ∃ s, z = Some s ∧ s ≠ "".
Proof.
  unfold not_in_None_empty. destruct z as [s|]; simpl.
  - rewrite negb_true_iff, bool_decide_eq_false. split.
    + intros Hs. exists s. split; [done | congruence].
    + intros (s' & [= <-] & Hs) [= ->]. done.
  - split; [done | by intros (? & ? & _)].
Qed.

Lemma index_Ok {A} (l : list A) (i : nat) (x : A) :
  index l i = Ok x ↔ l !! i = Some x.
Proof. unfold index. destruct (l !! i); split; congruence. Qed.

Lemma all_have_z_true (coordinates : list (list (option string))) :
  all_have_z coordinates = Ok true → Forall has_elevation coordinates.
Proof.
  induction coordinates as [|c rest IH]; simpl; intros Hall; [constructor|].
  bind_inv. apply index_Ok in Ha.
  destruct (not_in_None_empty a) eqn:Hz; [|discriminate].
  constructor; [|by apply IH].
  apply not_in_None_empty_true in Hz as (z & -> & Hz). by exists z.
Qed.

Lemma all_have_z_false (coordinates : list (list (option string))) :
  all_have_z coordinates = Ok false → Exists (λ c, ¬ has_elevation c) coordinates.
Proof.
  induction coordinates as [|c rest IH]; simpl; intros Hall; [discriminate|].
  bind_inv. apply index_Ok in Ha.
  destruct (not_in_None_empty a) eqn:Hz.
  - right. by apply IH.
  - left. intros (z & Hc & Hne). rewrite Ha in Hc. injection Hc as ->.
    assert (not_in_None_empty (Some z) = true) as Htrue
      by (apply not_in_None_empty_true; by exists z).
    congruence.
Qed.

(** On coordinates that all have a third component, the elevation test
    does not raise, and tells whether all of them have an elevation. *)
Lemma all_have_z_total (coordinates : list (list (option string))) :
  Forall (λ c, 3 ≤ length c) coordinates →
  ∃ has_z, all_have_z coordinates = Ok has_z ∧
           (has_z = true ↔ Forall has_elevation coordinates).
Proof.
  induction 1 as [|c rest Hc _ (has_z & IH & Hiff)]; simpl.
  - exists true. split; [done|]. split; [constructor | done].
  - destruct (lookup_lt_is_Some_2 c 2 Hc) as [z Hz].
    unfold index. rewrite Hz. simpl.
    destruct (not_in_None_empty z) eqn:Hne.
    + exists has_z. split; [done|]. rewrite Hiff, Forall_cons. split; [|tauto].
      intros Hrest. split; [|done].
      apply not_in_None_empty_true in Hne as (s & -> & Hs). by exists s.
    + exists false. split; [done|]. split; [done|].
      intros [(s & Hs & Hne') _]%Forall_cons_1. rewrite Hz in Hs.
      injection Hs as ->.
      assert (not_in_None_empty (Some s) = true) as Htrue
        by (apply not_in_None_empty_true; by exists s).
      congruence.
Qed.

Lemma parse_float_Ok `{PyRuntime} (value : option string) (field_name : string) f :
  parse_float value field_name = Ok f ↔ reads_as value f.
Proof.
  unfold parse_float, reads_as. destruct value as [text|].
  - destruct (float_of _) as [f'|] eqn:Hf; split.
    + intros [= <-]. by exists text.
    + intros (? & [= <-] & Hx). congruence.
    + done.
    + intros (? & [= <-] & Hx). congruence.
  - split; [done | by intros (? & ? & _)].
Qed.

Lemma parse_coordinates_length `{PyRuntime} (coords : list (option string)) parsed :
  parse_coordinates coords = Ok parsed → length parsed ≤ length coords.
Proof.
  revert parsed. induction coords as [|[c|] rest IH]; intros parsed; simpl.
  - intros [= <-]. done.
  - destruct (negb _).
    + destruct (float_of _); [|done]. intros Hp. bind_inv. subst parsed.
      simpl. apply IH in Ha. lia.
    + intros Hp%IH. lia.
  - intros Hp%IH. lia.
Qed.

(** When parse_coordinates returns as many floats as it was given
    components, it skipped none: each float is its component read. *)
Lemma parse_coordinates_full `{PyRuntime} (coords : list (option string)) parsed :
  parse_coordinates coords = Ok parsed → length parsed = length coords →
  Forall2 numeric coords parsed.
Proof.
  revert parsed. induction coords as [|[c|] rest IH]; intros parsed; simpl.
  - intros [= <-] _. constructor.
  - destruct (negb _) eqn:Hc.
    + destruct (float_of _) as [f|] eqn:Hf; [|done]. intros Hp. bind_inv.
      subst parsed. simpl. intros [= Hlen]. constructor; [|by apply IH].
      split; [|by exists c].
      intros [= ->]. done.
    + intros Hp%parse_coordinates_length Hlen. lia.
  - intros Hp%parse_coordinates_length Hlen. lia.
Qed.

Lemma parse_coordinates_numeric `{PyRuntime} (coords : list (option string)) fs :
  Forall2 numeric coords fs → parse_coordinates coords = Ok fs.
Proof.
  induction 1 as [|c f coords fs (Hne & text & -> & Hf) _ IH]; simpl; [done|].
  rewrite Hf, IH.
  destruct (String.eqb_spec text "") as [->|_]; [done|]. done.
Qed.

Lemma line_position_3d_Ok `{PyRuntime} (c : list (option string)) p :
  line_position_3d c = Ok p ↔ swapped true c p.
Proof.
  unfold line_position_3d, swapped. split.
  - intros Hp. bind_inv. subst p.
    apply index_Ok in Ha, Ha1, Ha3. apply parse_float_Ok in Ha0, Ha2, Ha4.
    exists a1, a, a2, a0. split_and!; try done. by exists a3, a4.
  - intros (x & y & fx & fy & Hx & Hy & Hfx & Hfy & z & fz & Hz & Hfz & ->).
    apply index_Ok in Hx, Hy, Hz. apply parse_float_Ok with (field_name := "x") in Hfx.
    apply parse_float_Ok with (field_name := "y") in Hfy.
    apply parse_float_Ok with (field_name := "z") in Hfz.
    rewrite Hy. simpl. rewrite Hfy. simpl. rewrite Hx. simpl. rewrite Hfx. simpl.
    rewrite Hz. simpl. by rewrite Hfz.
Qed.

Lemma line_position_2d_Ok `{PyRuntime} (c : list (option string)) p :
  line_position_2d c = Ok p ↔ swapped false c p.
Proof.
  unfold line_position_2d, swapped. split.
  - intros Hp. bind_inv. subst p.
    apply index_Ok in Ha, Ha1. apply parse_float_Ok in Ha0, Ha2.
    by exists a1, a, a2, a0.
  - intros (x & y & fx & fy & Hx & Hy & Hfx & Hfy & ->).
    apply index_Ok in Hx, Hy. apply parse_float_Ok with (field_name := "x") in Hfx.
    apply parse_float_Ok with (field_name := "y") in Hfy.
    rewrite Hy. simpl. rewrite Hfy. simpl. rewrite Hx. simpl. by rewrite Hfx.
Qed.

(** What a successful call of create_geometry went through. *)
Lemma create_geometry_Ok `{PyRuntime}
    (coordinates : list (list (option string))) (is_line : bool) geometry crs :
  create_geometry coordinates is_line = Ok (geometry, crs) →
  ∃ has_z,
    all_have_z coordinates = Ok has_z ∧
    (is_line = true → length coordinates = 2) ∧
    crs = Crs_named (crs_for has_z) ∧
    if is_line then
      ∃ ps, geometry = LineString ps ∧
            Forall2 (swapped has_z) coordinates ps
    else
      ∃ c x y, coordinates !! 0 = Some c ∧
        if has_z
        then ∃ z, parse_coordinates c = Ok [x; y; z] ∧ geometry = Point [y; x; z]
        else parse_coordinates (take 2 c) = Ok [x; y] ∧ geometry = Point [y; x].
Proof.
  unfold create_geometry. intros Hgeo.
  apply bind_Ok in Hgeo as (has_z & Hz & Hgeo). exists has_z. split; [done|].
  destruct (is_line && _) eqn:Harity; [discriminate|].
  apply except_ValueError_Ok in Hgeo. split.
  { intros ->. simpl in Harity. apply negb_false_iff, Nat.eqb_eq in Harity. done. }
  unfold build_geometry in Hgeo.
  destruct has_z, is_line; bind_inv; subst; (split; [done|]).
  - eexists. split; [done|]. apply for_each_Ok in Ha0.
    eapply Forall2_impl; [exact Ha0|]. intros c p. apply line_position_3d_Ok.
  - apply index_Ok in Ha0.
    destruct a1 as [|x [|y [|z [|]]]]; try discriminate. injection Ha as <-.
    exists a0, x, y. split; [done|]. by exists z.
  - eexists. split; [done|]. apply for_each_Ok in Ha0.
    eapply Forall2_impl; [exact Ha0|]. intros c p. apply line_position_2d_Ok.
  - apply index_Ok in Ha0.
    destruct a1 as [|x [|y [|]]]; try discriminate. injection Ha as <-.
    by exists a0, x, y.
Qed.

Lemma create_geometry_crs `{PyRuntime}
    (coordinates : list (list (option string))) (is_line : bool) geometry crs :
  create_geometry coordinates is_line = Ok (geometry, crs) →
  (crs_name_of crs = "EPSG:5972" ↔ Forall has_elevation coordinates) ∧
  (crs_name_of crs = "EPSG:25832" ↔ ¬ Forall has_elevation coordinates) ∧
  (crs = Crs_named "EPSG:5972" ∨ crs = Crs_named "EPSG:25832").
Proof.
  intros (has_z & Hz & _ & -> & _)%create_geometry_Ok.
  destruct has_z; simpl.
  - apply all_have_z_true in Hz. split_and!; [done | | by left].
    split; [done | tauto].
  - apply all_have_z_false, (Exists_not_Forall has_elevation) in Hz.
    split_and!; [| done | by right].
    split; [done | tauto].
Qed.

(** The positions of a geometry create_geometry returns have three
    components under "EPSG:5972" and two under "EPSG:25832". *)
Lemma create_geometry_dimension `{PyRuntime}
    (coordinates : list (list (option string))) (is_line : bool) geometry crs :
  create_geometry coordinates is_line = Ok (geometry, crs) →
  (crs_name_of crs = "EPSG:5972" ∧
   Forall (λ p, length p = 3) (positions geometry)) ∨
  (crs_name_of crs = "EPSG:25832" ∧
   Forall (λ p, length p = 2) (positions geometry)).
Proof.
  intros (has_z & _ & _ & -> & Hshape)%create_geometry_Ok.
  destruct has_z; [left | right]; (split; [done|]).
  - destruct is_line.
    + destruct Hshape as (ps & -> & Hps). simpl.
      apply (Forall2_Forall_r _ _ _ _ Hps), Forall_true.
      by intros c p (? & ? & ? & ? & _ & _ & _ & _ & ? & ? & _ & _ & ->).
    + destruct Hshape as (c & x & y & _ & z & _ & ->). by repeat constructor.
  - destruct is_line.
    + destruct Hshape as (ps & -> & Hps). simpl.
      apply (Forall2_Forall_r _ _ _ _ Hps), Forall_true.
      by intros c p (? & ? & ? & ? & _ & _ & _ & _ & ->).
    + destruct Hshape as (c & x & y & _ & _ & ->). by repeat constructor.
Qed.

Lemma create_geometry_line `{PyRuntime}
    (coordinates : list (list (option string))) geometry crs :
  create_geometry coordinates true = Ok (geometry, crs) →
  ∃ a b, geometry = LineString [a; b].
Proof.
  intros (has_z & _ & Hlen & _ & ps & -> & Hps)%create_geometry_Ok.
  apply Forall2_length in Hps. rewrite (Hlen eq_refl) in Hps.
  destruct ps as [|a [|b [|]]]; try discriminate. by exists a, b.
Qed.

(** ** Row classifier and feature assembler *)

Lemma item_Ok (row : Row) (field : string) (value : option string) :
  item row field = Ok value ↔ row !! field = Some value.
Proof. unfold item. destruct (row !! field); split; congruence. Qed.

(** Opens a converter that returned [Ok]: every step returned, and the
    pair create_geometry gave is the one in the result. *)
Ltac converter_inv :=
  bind_inv;
  match goal with
  | pair : (Geometry * Crs)%type |- _ => destruct pair as [? ?]
  end;
  bind_inv; simplify_eq; simpl;
  repeat match goal with
  | Hitem : item _ _ = Ok _ |- _ => apply item_Ok in Hitem
  end.

Lemma convert_overhead_structure_rows_Ok `{PyRuntime} (row : Row) feature crs :
  convert_overhead_structure_rows row = Ok (feature, crs) →
  ∃ x y p,
    row !! "x" = Some x ∧ row !! "y" = Some y ∧
    create_geometry [[x; y; get_default row "z" ""]] false
      = Ok (geometry feature, crs) ∧
    properties feature = Mast p.
Proof.
  unfold convert_overhead_structure_rows. intros Hrow. converter_inv.
  do 3 eexists. by split_and!.
Qed.

Lemma convert_guy_segments_rows_Ok `{PyRuntime} (row : Row) feature crs :
  convert_guy_segments_rows row = Ok (feature, crs) →
  ∃ coordinates p,
    line_coordinates row = Ok coordinates ∧
    create_geometry coordinates true = Ok (geometry feature, crs) ∧
    properties feature = Luftspenn p ∧
    NrlLuftspenn.luftspenn_type p = bardun.
Proof.
  unfold convert_guy_segments_rows. intros Hrow. converter_inv.
  do 2 eexists. by split_and!.
Qed.

Lemma convert_ac_linesegments_rows_Ok `{PyRuntime} (row : Row) feature crs :
  convert_ac_linesegments_rows row = Ok (feature, crs) →
  ∃ coordinates p,
    line_coordinates row = Ok coordinates ∧
    create_geometry coordinates true = Ok (geometry feature, crs) ∧
    properties feature = Luftspenn p ∧
    NrlLuftspenn.luftfartshinderlyssetting p = None ∧
    NrlLuftspenn.luftfartshindermerking p = None.
Proof.
  unfold convert_ac_linesegments_rows. intros Hrow. converter_inv.
  do 2 eexists. by split_and!.
Qed.

(** A row that converts took one of the three assembly paths. *)
Lemma process_row_Ok `{PyRuntime} (row : Row) feature crs :
  process_row row = Ok (feature, crs) →
  (get row "Tabell ID" = Some "109" ∧
   convert_overhead_structure_rows row = Ok (feature, crs)) ∨
  (get row "Tabell ID" = Some "261" ∧
   row !! "Betegnelse" = Some (Some "Bardunline") ∧
   convert_guy_segments_rows row = Ok (feature, crs)) ∨
  (get row "Tabell ID" = Some "261" ∧
   (∃ betegnelse, row !! "Betegnelse" = Some betegnelse ∧
                  betegnelse ≠ Some "Bardunline") ∧
   convert_ac_linesegments_rows row = Ok (feature, crs)).
Proof.
  unfold process_row. intros Hrow.
  destruct (decide (get row "Tabell ID" = Some "261")) as [H261|_].
  - apply bind_Ok in Hrow as (betegnelse & Hb & Hrow).
    unfold item in Hb. destruct (row !! "Betegnelse") as [b|] eqn:Hlookup; [|done].
    injection Hb as ->.
    destruct (decide (betegnelse = Some "Bardunline")) as [->|Hother].
    + right. left. done.
    + right. right. split_and!; [done | by exists betegnelse | done].
  - destruct (decide (get row "Tabell ID" = Some "109")) as [H109|_]; [|done].
    by left.
Qed.

Lemma process_row_unknown_category `{PyRuntime} (row : Row) :
  unknown_category row →
  process_row row = Raise (ValueError (Unknown_Tabell_ID (get row "Tabell ID"))).
Proof.
  intros [H261 H109]. unfold process_row.
  by rewrite (decide_False (P := _ = Some "261")), (decide_False (P := _ = Some "109")).
Qed.

(** What process_row returns went through create_geometry. *)
Lemma process_row_geometry `{PyRuntime} (row : Row) feature crs :
  process_row row = Ok (feature, crs) →
  ∃ coordinates is_line,
    create_geometry coordinates is_line = Ok (geometry feature, crs).
Proof.
  intros [(_ & Hrow) | [(_ & _ & Hrow) | (_ & _ & Hrow)]]%process_row_Ok.
  - apply convert_overhead_structure_rows_Ok in Hrow as (x & y & _ & _ & _ & Hgeo & _).
    eauto.
  - apply convert_guy_segments_rows_Ok in Hrow as (cs & _ & _ & Hgeo & _). eauto.
  - apply convert_ac_linesegments_rows_Ok in Hrow as (cs & _ & _ & Hgeo & _). eauto.
Qed.

(** ** Collection grouper *)

Lemma process_rows_Ok `{PyRuntime} (rows : list Row) feature_by_crs result :
  process_rows rows feature_by_crs = Ok result →
  ∃ converted,
    Forall2 (λ row fc, process_row row = Ok fc) rows converted ∧
    result = foldl accumulate feature_by_crs converted.
Proof.
  revert feature_by_crs.
  induction rows as [|row rows IH]; intros feature_by_crs; simpl.
  - intros [= <-]. exists []. by split; [constructor|].
  - intros Hrows. apply bind_Ok in Hrows as ([feature crs] & Hrow & Hrows).
    apply IH in Hrows as (converted & Hall & ->).
    exists ((feature, crs) :: converted). by split; [constructor|].
Qed.

Lemma process_rows_converted `{PyRuntime} (rows : list Row) converted feature_by_crs :
  Forall2 (λ row fc, process_row row = Ok fc) rows converted →
  process_rows rows feature_by_crs = Ok (foldl accumulate feature_by_crs converted).
Proof.
  intros Hall. revert feature_by_crs.
  induction Hall as [|row [feature crs] rows converted Hrow _ IH];
    intros feature_by_crs; simpl; [done|].
  rewrite Hrow. simpl. apply IH.
Qed.

(** The loop raises what the first row that fails to convert raises,
    whatever it has accumulated and whatever rows follow. *)
Lemma process_rows_Raise `{PyRuntime} (before after : list Row) (row : Row) e feature_by_crs :
  Forall (λ r, ∃ fc, process_row r = Ok fc) before →
  process_row row = Raise e →
  process_rows (before ++ row :: after) feature_by_crs = Raise e.
Proof.
  intros Hbefore Hrow. revert feature_by_crs.
  induction Hbefore as [|r before [[feature crs] Hr] _ IH];
    intros feature_by_crs; simpl.
  - by rewrite Hrow.
  - rewrite Hr. simpl. apply IH.
Qed.

Lemma elem_of_first_occurrences (l : list string) (x : string) :
  x ∈ first_occurrences l ↔ x ∈ l.
Proof.
  induction l as [|y l IH]; simpl; [done|].
  rewrite !elem_of_cons, list_elem_of_filter, IH.
  destruct (decide (x = y)); tauto.
Qed.

Lemma NoDup_first_occurrences (l : list string) : NoDup (first_occurrences l).
Proof.
  induction l as [|y l IH]; simpl; constructor.
  - rewrite list_elem_of_filter. tauto.
  - by apply NoDup_filter.
Qed.

Lemma first_occurrences_snoc (l : list string) (k : string) :
  first_occurrences (l ++ [k])
    = if decide (k ∈ l) then first_occurrences l else first_occurrences l ++ [k].
Proof.
  induction l as [|x l IH].
  - rewrite decide_False; [done | apply not_elem_of_nil].
  - simpl. rewrite IH. destruct (decide (k ∈ l)) as [Hin|Hout].
    + rewrite decide_True; [done | by right].
    + rewrite filter_app. destruct (decide (k = x)) as [->|Hne].
      * rewrite decide_True by left. rewrite filter_cons_False by naive_solver.
        by rewrite filter_nil, app_nil_r.
      * rewrite decide_False by (rewrite elem_of_cons; tauto).
        by rewrite filter_cons_True.
Qed.

Lemma features_tagged_snoc `{PyRuntime} (tag : string) converted (fc : Feature * Crs) :
  features_tagged tag (converted ++ [fc])
    = if decide (crs_name_of fc.2 = tag)
      then features_tagged tag converted ++ [fc.1]
      else features_tagged tag converted.
Proof.
  unfold features_tagged. rewrite filter_app, fmap_app.
  case_decide.
  - by rewrite filter_cons_True.
  - by rewrite filter_cons_False, filter_nil, app_nil_r.
Qed.

Lemma features_tagged_absent `{PyRuntime} (tag : string) converted :
  tag ∉ (λ fc, crs_name_of fc.2) <$> converted → features_tagged tag converted = [].
Proof.
  unfold features_tagged. induction converted as [|fc converted IH]; [done|].
  rewrite fmap_cons, not_elem_of_cons. intros [Hne Hout].
  rewrite filter_cons_False by done. by apply IH.
Qed.

(** Appending under a key of a dict whose keys [ks] are distinct and whose
    buckets are [bucket k]. *)
Lemma setdefault_append_buckets `{PyRuntime}
    (bucket : string → list Feature) (ks : list string) (k : string) feature :
  NoDup ks →
  setdefault_append ((λ k', (k', bucket k')) <$> ks) k feature
    = if decide (k ∈ ks)
      then (λ k', (k', if decide (k = k') then bucket k' ++ [feature]
                       else bucket k')) <$> ks
      else ((λ k', (k', bucket k')) <$> ks) ++ [(k, [feature])].
Proof.
  induction 1 as [|k' ks Hout Hnodup IH].
  - rewrite decide_False; [done | apply not_elem_of_nil].
  - rewrite !fmap_cons. cbn [setdefault_append].
    destruct (decide (k' = k)) as [->|Hne].
    + rewrite decide_True by left. rewrite decide_True by done. f_equal.
      apply list_fmap_ext. intros _ k' Hk'%list_elem_of_lookup_2.
      rewrite decide_False; [done | congruence].
    + rewrite IH. destruct (decide (k ∈ ks)) as [Hin|Hnotin].
      * rewrite decide_True by by right.
        by rewrite (decide_False (P := k = k')).
      * rewrite decide_False by (rewrite elem_of_cons; by intros [?|?]). done.
Qed.

(** The dict the loop builds from an empty one: a key per CRS tag, in the
    order the tags first occur, holding the features with that tag in
    batch order. *)
Lemma grouped_by_first_occurrence `{PyRuntime} (converted : list (Feature * Crs)) :
  foldl accumulate [] converted
    = (λ tag, (tag, features_tagged tag converted))
        <$> first_occurrences ((λ fc, crs_name_of fc.2) <$> converted).
Proof.
  induction converted as [|fc converted IH] using rev_ind; [done|].
  rewrite foldl_snoc, IH, fmap_app. simpl. unfold accumulate at 1. simpl.
  rewrite setdefault_append_buckets by apply NoDup_first_occurrences.
  rewrite first_occurrences_snoc.
  destruct (decide (crs_name_of fc.2 ∈ (λ fc, crs_name_of fc.2) <$> converted))
    as [Hin|Hout].
  - rewrite decide_True by by apply elem_of_first_occurrences.
    apply list_fmap_ext. intros _ tag _. rewrite features_tagged_snoc.
    by repeat case_decide.
  - rewrite decide_False by by rewrite elem_of_first_occurrences.
    rewrite fmap_app. simpl. f_equal.
    + apply list_fmap_ext. intros _ tag Htag%list_elem_of_lookup_2.
      rewrite features_tagged_snoc, decide_False; [done|].
      intros <-. by apply Hout, elem_of_first_occurrences.
    + rewrite features_tagged_snoc, decide_True by done.
      by rewrite features_tagged_absent.
Qed.

(** The collections _process_csv_file returns, in terms of the rows as
    converted one by one. *)
Lemma process_csv_file_Ok `{PyRuntime} (rows : list Row) collections :
  _process_csv_file rows = Ok collections →
  ∃ converted,
    Forall2 (λ row fc, process_row row = Ok fc) rows converted ∧
    collections
      = (λ tag, {| crs := Crs_named tag;
                   features := features_tagged tag converted |})
          <$> first_occurrences ((λ fc, crs_name_of fc.2) <$> converted).
Proof.
  unfold _process_csv_file. intros Hrows.
  apply bind_Ok in Hrows as (feature_by_crs & Hloop & [= <-]).
  apply process_rows_Ok in Hloop as (converted & Hall & ->).
  exists converted. split; [done|].
  rewrite grouped_by_first_occurrence. by rewrite <-list_fmap_compose.
Qed.

Lemma process_csv_file_converted `{PyRuntime} (rows : list Row) converted :
  Forall2 (λ row fc, process_row row = Ok fc) rows converted →
  _process_csv_file rows
    = Ok ((λ tag, {| crs := Crs_named tag;
                     features := features_tagged tag converted |})
            <$> first_occurrences ((λ fc, crs_name_of fc.2) <$> converted)).
Proof.
  intros Hall. unfold _process_csv_file.
  rewrite (process_rows_converted _ _ _ Hall). simpl.
  rewrite grouped_by_first_occurrence. by rewrite <-list_fmap_compose.
Qed.

(** The tag of a collection is the CRS process_row gave one of the rows. *)
Lemma collection_tag_from_row `{PyRuntime} (rows : list Row) converted (tag : string) :
  Forall2 (λ row fc, process_row row = Ok fc) rows converted →
  tag ∈ first_occurrences ((λ fc, crs_name_of fc.2) <$> converted) →
  ∃ row feature crs,
    row ∈ rows ∧ process_row row = Ok (feature, crs) ∧ crs_name_of crs = tag.
Proof.
  intros Hall Htag. rewrite elem_of_first_occurrences in Htag.
  apply list_elem_of_fmap in Htag as ([feature crs] & -> & Hfc).
  apply list_elem_of_lookup in Hfc as [i Hi].
  destruct (Forall2_lookup_r _ _ _ _ _ Hall Hi) as (row & Hrow & Hconv).
  exists row, feature, crs. split_and!; [|done..].
  by apply list_elem_of_lookup_2 in Hrow.
Qed.

(** ** The CRS, the geometry and the features *)

(** C1. When create_geometry returns, for a point or for a line, the CRS
    it returns is "EPSG:5972" exactly when every coordinate it was given
    has a non-empty third component, and "EPSG:25832" exactly when some
    coordinate has none; so two calls that agree on elevation presence
    return the same CRS, whatever else differs. Every CRS that process_row
    returns for a row, and every CRS of a collection that
    _process_csv_file returns, is one of these two. *)
Theorem crs_follows_elevation_presence `{PyRuntime} :
  (∀ coordinates is_line geometry crs,
     create_geometry coordinates is_line = Ok (geometry, crs) →
     (crs_name_of crs = "EPSG:5972" ↔ Forall has_elevation coordinates) ∧
     (crs_name_of crs = "EPSG:25832" ↔ ¬ Forall has_elevation coordinates) ∧
     (crs = Crs_named "EPSG:5972" ∨ crs = Crs_named "EPSG:25832")) ∧
  (∀ coordinates is_line geometry crs coordinates' is_line' geometry' crs',
     create_geometry coordinates is_line = Ok (geometry, crs) →
     create_geometry coordinates' is_line' = Ok (geometry', crs') →
     (Forall has_elevation coordinates ↔ Forall has_elevation coordinates') →
     crs = crs') ∧
  (∀ row feature crs,
     process_row row = Ok (feature, crs) →
     crs = Crs_named "EPSG:5972" ∨ crs = Crs_named "EPSG:25832") ∧
  (∀ rows collections collection,
     _process_csv_file rows = Ok collections →
     collection ∈ collections →
     crs collection = Crs_named "EPSG:5972" ∨
     crs collection = Crs_named "EPSG:25832").
Proof.
  assert (∀ row feature crs,
     process_row row = Ok (feature, crs) →
     crs = Crs_named "EPSG:5972" ∨ crs = Crs_named "EPSG:25832") as Hrow.
  { intros row feature crs (cs & is_line & Hgeo)%process_row_geometry.
    by apply create_geometry_crs in Hgeo as (_ & _ & Hcrs). }
  split_and!.
  - intros coordinates is_line geometry crs. apply create_geometry_crs.
  - intros coordinates is_line geometry crs coordinates' is_line' geometry' crs'
      Hgeo Hgeo' Hsame.
    apply create_geometry_crs in Hgeo as (H5972 & _ & [-> | ->]),
      Hgeo' as (H5972' & _ & [-> | ->]); try done.
    + exfalso. assert (Forall has_elevation coordinates) as Hall by by apply H5972.
      apply Hsame, H5972' in Hall. discriminate.
    + exfalso. assert (Forall has_elevation coordinates') as Hall by by apply H5972'.
      apply Hsame, H5972 in Hall. discriminate.
  - exact Hrow.
  - intros rows collections collection
      (converted & Hall & ->)%process_csv_file_Ok
      (tag & -> & Htag)%list_elem_of_fmap. simpl.
    destruct (collection_tag_from_row _ _ _ Hall Htag)
      as (row & feature & crs & _ & Hconv & <-).
    by destruct (Hrow _ _ _ Hconv) as [-> | ->]; [left | right].
Qed.

Lemma crs_follows_elevation_presence_witness :
  Forall has_elevation [[Some "100"; Some "200"; Some "10"]] ∧
  ¬ Forall has_elevation
      [[Some "100"; Some "200"; Some "10"]; [Some "300"; Some "400"; Some ""]].
Proof.
  pose proof (@crs_follows_elevation_presence Reference.runtime) as (Hcrs & _).
  split.
  - apply (Hcrs [[Some "100"; Some "200"; Some "10"]] false
             (@Point Reference.runtime [Qmake 200 1; Qmake 100 1; Qmake 10 1])
             (Crs_named "EPSG:5972")); reflexivity.
  - apply (Hcrs [[Some "100"; Some "200"; Some "10"];
                 [Some "300"; Some "400"; Some ""]] true
             (@LineString Reference.runtime
                [[Qmake 200 1; Qmake 100 1]; [Qmake 400 1; Qmake 300 1]])
             (Crs_named "EPSG:25832")); reflexivity.
Defined.

(** C2. Every position create_geometry emits for a coordinate triple is the
    triple read as floats with its first two components exchanged: (y, x)
    under "EPSG:25832" and (y, x, z) under "EPSG:5972", for the one
    position of a Point and for both positions of a LineString. A point
    with x = "100", y = "200" and no elevation gives [200, 100] with
    "EPSG:25832", also as the geometry of an overhead-structure record; with
    z = "10" it gives [200, 100, 10] with "EPSG:5972". *)
Theorem geometry_swaps_first_two_components `{PyRuntime} :
  (∀ coordinates is_line geometry crs,
     Forall (λ c, length c = 3) coordinates →
     create_geometry coordinates is_line = Ok (geometry, crs) →
     ∃ three_d,
       crs = Crs_named (crs_for three_d) ∧
       Forall2 (swapped three_d)
         (if is_line then coordinates else take 1 coordinates)
         (positions geometry)) ∧
  (∀ z f100 f200,
     z = None ∨ z = Some "" →
     float_of "100" = Some f100 → float_of "200" = Some f200 →
     create_geometry [[Some "100"; Some "200"; z]] false
       = Ok (Point [f200; f100], Crs_named "EPSG:25832") ∧
     ∀ row feature crs,
       row !! "x" = Some (Some "100") → row !! "y" = Some (Some "200") →
       get_default row "z" "" = z →
       convert_overhead_structure_rows row = Ok (feature, crs) →
       geometry feature = Point [f200; f100] ∧ crs = Crs_named "EPSG:25832") ∧
  (∀ f100 f200 f10,
     float_of "100" = Some f100 → float_of "200" = Some f200 →
     float_of "10" = Some f10 →
     create_geometry [[Some "100"; Some "200"; Some "10"]] false
       = Ok (Point [f200; f100; f10], Crs_named "EPSG:5972")).
Proof.
  split_and!.
  - intros coordinates is_line geometry crs Htriples
      (has_z & _ & _ & -> & Hshape)%create_geometry_Ok.
    exists has_z. split; [done|]. destruct is_line.
    { by destruct Hshape as (ps & -> & Hps). }
    destruct Hshape as (c & x & y & Hc & Hpoint).
    destruct coordinates as [|c' rest]; [done|]. injection Hc as ->.
    apply Forall_cons_1 in Htriples as [Hlen _].
    destruct c as [|cx [|cy [|cz [|]]]]; try discriminate. clear Hlen.
    simpl take. destruct has_z.
    + destruct Hpoint as (z & Hparse & ->). simpl.
      apply parse_coordinates_full in Hparse; [|done].
      apply Forall2_cons_1 in Hparse as [[_ Hx] Hparse].
      apply Forall2_cons_1 in Hparse as [[_ Hy] Hparse].
      apply Forall2_cons_1 in Hparse as [[_ Hz] _].
      constructor; [|constructor].
      exists cx, cy, x, y. split_and!; try done. by exists cz, z.
    + destruct Hpoint as (Hparse & ->). simpl.
      apply parse_coordinates_full in Hparse; [|done].
      apply Forall2_cons_1 in Hparse as [[_ Hx] Hparse].
      apply Forall2_cons_1 in Hparse as [[_ Hy] _].
      constructor; [|constructor].
      by exists cx, cy, x, y.
  - intros z f100 f200 Hz H100 H200.
    assert (create_geometry [[Some "100"; Some "200"; z]] false
              = Ok (Point [f200; f100], Crs_named "EPSG:25832")) as Hgeo.
    { unfold create_geometry, build_geometry. destruct Hz as [-> | ->]; simpl;
        by rewrite H100, H200. }
    split; [done|].
    intros row feature crs Hx Hy <-
      (x & y & _ & Hx' & Hy' & Hgeo' & _)%convert_overhead_structure_rows_Ok.
    rewrite Hx in Hx'. rewrite Hy in Hy'. injection Hx' as <-. injection Hy' as <-.
    rewrite Hgeo in Hgeo'. by injection Hgeo' as <- <-.
  - intros f100 f200 f10 H100 H200 H10.
    unfold create_geometry, build_geometry. simpl. by rewrite H100, H200, H10.
Qed.

Lemma geometry_swaps_first_two_components_witness :
  @create_geometry Reference.runtime [[Some "100"; Some "200"; Some ""]] false
    = Ok (@Point Reference.runtime [Qmake 200 1; Qmake 100 1],
          Crs_named "EPSG:25832") ∧
  @create_geometry Reference.runtime [[Some "100"; Some "200"; Some "10"]] false
    = Ok (@Point Reference.runtime [Qmake 200 1; Qmake 100 1; Qmake 10 1],
          Crs_named "EPSG:5972") ∧
  ∃ three_d,
    Forall2 (@swapped Reference.runtime three_d)
      [[Some "100"; Some "200"; Some "10"]; [Some "300"; Some "400"; Some "20"]]
      [[Qmake 200 1; Qmake 100 1; Qmake 10 1];
       [Qmake 400 1; Qmake 300 1; Qmake 20 1]].
Proof.
  pose proof (@geometry_swaps_first_two_components Reference.runtime)
    as (Hany & H2d & H3d).
  split_and!.
  - apply (H2d (Some "")); [by right | reflexivity | reflexivity].
  - apply H3d; reflexivity.
  - destruct (Hany
      [[Some "100"; Some "200"; Some "10"]; [Some "300"; Some "400"; Some "20"]]
      true
      (@LineString Reference.runtime
         [[Qmake 200 1; Qmake 100 1; Qmake 10 1];
          [Qmake 400 1; Qmake 300 1; Qmake 20 1]])
      (Crs_named "EPSG:5972")) as (three_d & _ & Hswapped).
    + repeat constructor.
    + reflexivity.
    + by exists three_d.
Defined.

(** C9. Asked for a line, create_geometry raises the "LineString requires
    exactly 2 points" ValueError on every input of coordinate triples that
    does not hold exactly 2 of them. The check is made for lines only:
    asked for a point, it never raises that error. A line/guy record
    (Tabell ID 261) that converts yields one feature with Luftspenn
    properties whose geometry is a LineString of exactly 2 positions. *)
Theorem line_requires_exactly_two_points `{PyRuntime} :
  (∀ coordinates,
     Forall (λ c, 3 ≤ length c) coordinates →
     length coordinates ≠ 2 →
     create_geometry coordinates true
       = Raise (ValueError LineString_requires_exactly_2_points)) ∧
  (∀ coordinates,
     create_geometry coordinates false
       ≠ Raise (ValueError LineString_requires_exactly_2_points)) ∧
  (∀ row feature crs,
     get row "Tabell ID" = Some "261" →
     process_row row = Ok (feature, crs) →
     ∃ p a b,
       properties feature = Luftspenn p ∧
       geometry feature = LineString [a; b])
.
Proof.
  split_and!.
  - intros coordinates Htriples Hlen.
    destruct (all_have_z_total coordinates Htriples) as (has_z & Hz & _).
    unfold create_geometry. rewrite Hz. simpl.
    by apply Nat.eqb_neq in Hlen as ->.
  - intros coordinates. unfold create_geometry.
    destruct (all_have_z coordinates) as [has_z|e] eqn:Hz; simpl.
    + by destruct (build_geometry coordinates false has_z) as [|[]].
    + induction coordinates as [|c rest IH] in e, Hz |- *; [done|].
      simpl in Hz. destruct (index c 2) as [z|] eqn:Hc; simpl in Hz.
      * destruct (not_in_None_empty z); [|done].
        destruct (all_have_z rest) as [|e'] eqn:Hrest; [done|].
        injection Hz as <-. by eapply IH.
      * unfold index in Hc. destruct (c !! 2); [done|].
        injection Hc as <-. by injection Hz as <-.
  - intros row feature crs H261
      [(H109 & _) | [(_ & _ & Hrow) | (_ & _ & Hrow)]]%process_row_Ok.
    + congruence.
    + apply convert_guy_segments_rows_Ok in Hrow as (cs & p & _ & Hgeo & Hp & _).
      apply create_geometry_line in Hgeo as (a & b & Hline). by exists p, a, b.
    + apply convert_ac_linesegments_rows_Ok in Hrow as (cs & p & _ & Hgeo & Hp & _).
      apply create_geometry_line in Hgeo as (a & b & Hline). by exists p, a, b.
Qed.

Lemma line_requires_exactly_two_points_witness :
  @create_geometry Reference.runtime [[Some "100"; Some "200"; Some "10"]] true
    = Raise (ValueError LineString_requires_exactly_2_points).
Proof.
  apply (proj1 (@line_requires_exactly_two_points Reference.runtime)).
  - repeat constructor.
  - simpl. lia.
Defined.

(** C10. On coordinate triples of which at least one has and at least one
    lacks a non-empty third component, with numeric x and y throughout (two
    triples when a line is asked for), create_geometry does not raise: it
    returns 2D geometry with "EPSG:25832", each position being (y, x) of
    its triple, and no third component of the input reaches the output. *)
Theorem mixed_elevation_degrades_to_2d `{PyRuntime}
    (coordinates : list (list (option string))) (is_line : bool)
    (xy : list (Float * Float)) :
  Forall (λ c, length c = 3) coordinates →
  (is_line = true → length coordinates = 2) →
  Exists has_elevation coordinates →
  Exists (λ c, ¬ has_elevation c) coordinates →
  Forall2 (λ c f, ∃ x y, c !! 0 = Some x ∧ c !! 1 = Some y ∧
                         numeric x f.1 ∧ numeric y f.2) coordinates xy →
  ∃ geometry,
    create_geometry coordinates is_line
      = Ok (geometry, Crs_named "EPSG:25832") ∧
    positions geometry
      = (λ f, [f.2; f.1]) <$> (if is_line then xy else take 1 xy).
Proof.
  intros Htriples Hlen Hsome Hnone Hxy.
  assert (Forall (λ c, 3 ≤ length c) coordinates) as Hthird.
  { eapply Forall_impl; [exact Htriples|]. simpl. lia. }
  destruct (all_have_z_total coordinates Hthird) as (has_z & Hz & Hiff).
  destruct has_z.
  { exfalso. by apply (Exists_not_Forall has_elevation coordinates Hnone), Hiff. }
  unfold create_geometry. rewrite Hz. simpl. destruct is_line.
  - rewrite (Hlen eq_refl). simpl. unfold build_geometry.
    assert (for_each line_position_2d coordinates
              = Ok ((λ f, [f.2; f.1]) <$> xy)) as ->.
    { apply for_each_all_Ok, Forall2_fmap_r.
      eapply Forall2_impl; [exact Hxy|]. simpl.
      intros c f (x & y & Hx & Hy & [_ Hfx] & [_ Hfy]).
      apply line_position_2d_Ok. by exists x, y, f.1, f.2. }
    simpl. by eexists.
  - simpl. unfold build_geometry.
    destruct Hxy as [|c f rest xy' (x & y & Hx & Hy & Hfx & Hfy) _].
    { by apply Exists_nil in Hsome. }
    apply Forall_cons_1 in Htriples as [Htriple _].
    destruct c as [|cx [|cy [|cz [|]]]]; try discriminate.
    injection Hx as ->. injection Hy as ->.
    pose proof (parse_coordinates_numeric [x; y] [f.1; f.2]) as Hparse.
    simpl in *. rewrite Hparse.
    + simpl. by eexists.
    + constructor; [done | constructor; [done | constructor]].
Qed.

Lemma mixed_elevation_degrades_to_2d_witness :
  ∃ geometry,
    @create_geometry Reference.runtime
      [[Some "1"; Some "2"; Some "10"]; [Some "300"; Some "400"; Some ""]] true
      = Ok (geometry, Crs_named "EPSG:25832") ∧
    @positions Reference.runtime geometry
      = [[Qmake 2 1; Qmake 1 1]; [Qmake 400 1; Qmake 300 1]].
Proof.
  apply (@mixed_elevation_degrades_to_2d Reference.runtime
           [[Some "1"; Some "2"; Some "10"]; [Some "300"; Some "400"; Some ""]]
           true [(Qmake 1 1, Qmake 2 1); (Qmake 300 1, Qmake 400 1)]).
  - repeat constructor.
  - reflexivity.
  - left. by exists "10".
  - right. left. intros (z & [= <-] & Hz). done.
  - constructor; [|constructor; [|constructor]].
    + exists (Some "1"), (Some "2"). split_and!; try done.
      * split; [done | by exists "1"].
      * split; [done | by exists "2"].
    + exists (Some "300"), (Some "400"). split_and!; try done.
      * split; [done | by exists "300"].
      * split; [done | by exists "400"].
Defined.

(** The mast path resolves lighting and marking from the record. *)
Lemma overhead_structure_lighting_from_record `{PyRuntime} (row : Row) feature crs :
  convert_overhead_structure_rows row = Ok (feature, crs) →
  ∃ p, properties feature = Mast p ∧
       NrlMast.luftfartshinderlyssetting p
         = map_lighting_kind (get row "Luftfartshinderlyssetting(NRL)") ∧
       NrlMast.luftfartshindermerking p
         = map_marking_kind (get row "Luftfartshindermerking (NRL)").
Proof.
  unfold convert_overhead_structure_rows. intros Hrow. converter_inv.
  eexists. by split_and!.
Qed.

(** C3. What the code does on the AC-line path, against the claim: for a
    line/guy record (Tabell ID 261) whose Betegnelse is not "Bardunline",
    the lighting and the marking of the Luftspenn feature are None whatever
    the record holds, because map_lighting_kind and map_marking_kind are
    given the column names instead of the record's values. *)
Theorem ac_line_lighting_and_marking_always_absent `{PyRuntime}
    (row : Row) (betegnelse : option string) feature crs :
  get row "Tabell ID" = Some "261" →
  row !! "Betegnelse" = Some betegnelse →
  betegnelse ≠ Some "Bardunline" →
  process_row row = Ok (feature, crs) →
  ∃ p, properties feature = Luftspenn p ∧
       NrlLuftspenn.luftfartshinderlyssetting p = None ∧
       NrlLuftspenn.luftfartshindermerking p = None.
Proof.
  intros H261 Hb Hother
    [(H109 & _) | [(_ & Hguy & _) | (_ & _ & Hrow)]]%process_row_Ok.
  - congruence.
  - congruence.
  - apply convert_ac_linesegments_rows_Ok in Hrow
      as (cs & p & _ & _ & Hp & Hlighting & Hmarking).
    by exists p.
Qed.

Lemma ac_line_lighting_and_marking_always_absent_witness :
  map_lighting_kind (get Rows.ac_line_lit_and_marked "Luftfartshinderlyssetting(NRL)")
    = Some lyssatt ∧
  map_marking_kind (get Rows.ac_line_lit_and_marked "Luftfartshindermerking(NRL)")
    = Some fargermerking ∧
  ∃ feature crs p,
    @process_row Reference.runtime Rows.ac_line_lit_and_marked = Ok (feature, crs) ∧
    properties feature = Luftspenn p ∧
    NrlLuftspenn.luftfartshinderlyssetting p = None ∧
    NrlLuftspenn.luftfartshindermerking p = None.
Proof.
  split; [reflexivity|]. split; [reflexivity|].
  assert (∃ feature crs,
            @process_row Reference.runtime Rows.ac_line_lit_and_marked
              = Ok (feature, crs)) as (feature & crs & Hrow).
  { do 2 eexists. reflexivity. }
  destruct (@ac_line_lighting_and_marking_always_absent Reference.runtime
              Rows.ac_line_lit_and_marked (Some "Ledning") feature crs)
    as (p & Hp); [reflexivity | reflexivity | discriminate | exact Hrow |].
  exists feature, crs, p. split; [exact Hrow | exact Hp].
Defined.

(** ** Grouping *)

(** An overhead-structure record gets "EPSG:5972" exactly when its z is
    there and not empty. *)
Lemma overhead_structure_crs `{PyRuntime} (row : Row) feature crs :
  convert_overhead_structure_rows row = Ok (feature, crs) →
  crs_name_of crs = "EPSG:5972" ↔ truthy (get_default row "z" "") = true.
Proof.
  intros (x & y & _ & _ & _ & Hgeo & _)%convert_overhead_structure_rows_Ok.
  apply create_geometry_crs in Hgeo as (-> & _).
  rewrite Forall_singleton, truthy_true. unfold has_elevation. simpl.
  split.
  - intros (z & [= ->] & Hz). exists z. by split.
  - intros (z & -> & Hz). exists z. by split.
Qed.

Lemma elem_of_features_tagged `{PyRuntime} (tag : string) converted feature :
  feature ∈ features_tagged tag converted ↔
  ∃ crs, (feature, crs) ∈ converted ∧ crs_name_of crs = tag.
Proof.
  unfold features_tagged. rewrite list_elem_of_fmap. split.
  - intros ([f crs] & -> & [Htag Hin]%list_elem_of_filter). by exists crs.
  - intros (crs & Hin & Htag). exists (feature, crs).
    by rewrite list_elem_of_filter.
Qed.

Lemma features_tagged_cons `{PyRuntime} (tag : string) converted (fc : Feature * Crs) :
  features_tagged tag (fc :: converted)
    = if decide (crs_name_of fc.2 = tag)
      then fc.1 :: features_tagged tag converted
      else features_tagged tag converted.
Proof.
  unfold features_tagged. case_decide.
  - by rewrite filter_cons_True.
  - by rewrite filter_cons_False.
Qed.

(** The buckets of distinct keys that cover every tag of the batch hold the
    features of the batch, each once. *)
Lemma buckets_partition `{PyRuntime} (ks : list string) converted :
  NoDup ks →
  (∀ fc, fc ∈ converted → crs_name_of fc.2 ∈ ks) →
  concat ((λ tag, features_tagged tag converted) <$> ks) ≡ₚ converted.*1.
Proof.
  intros Hnodup. induction converted as [|fc converted IH]; intros Hcover.
  - clear Hnodup Hcover. induction ks as [|k ks IHks]; [done|].
    simpl. exact IHks.
  - rewrite fmap_cons. rewrite <-IH by (intros fc' Hfc'; apply Hcover; by right).
    destruct (list_elem_of_split ks (crs_name_of fc.2)) as (k1 & k2 & ->).
    { apply Hcover. left. }
    apply NoDup_app in Hnodup as (_ & Hk1 & [Hk2 _]%NoDup_cons).
    rewrite !fmap_app, !fmap_cons, !concat_app, !concat_cons.
    rewrite features_tagged_cons, decide_True by done.
    rewrite (list_fmap_ext (λ tag, features_tagged tag (fc :: converted))
               (λ tag, features_tagged tag converted) k1).
    2:{ intros _ tag Htag%list_elem_of_lookup_2.
        rewrite features_tagged_cons, decide_False; [done|].
        intros <-. by apply (Hk1 _ Htag); left. }
    rewrite (list_fmap_ext (λ tag, features_tagged tag (fc :: converted))
               (λ tag, features_tagged tag converted) k2).
    2:{ intros _ tag Htag%list_elem_of_lookup_2.
        rewrite features_tagged_cons, decide_False; [done|].
        by intros <-. }
    simpl. symmetry. apply Permutation_middle.
Qed.

(** C4. When _process_csv_file returns, with [converted] the features and
    CRS of the rows in input order: the collections come in the order in
    which their CRS tags first occur; each collection holds exactly the
    features converted with its tag, in input order; each of its features
    has 2D positions under "EPSG:25832" and 3D positions under "EPSG:5972";
    and the collections together hold every converted feature once (none
    dropped, merged or duplicated). Two overhead-structure records that
    convert, one with and one without elevation, give exactly 2 collections
    of exactly 1 feature each, in the order of the records. And a batch
    whose rows all convert does return collections. *)
Theorem collections_keep_first_occurrence_and_input_order `{PyRuntime} :
  (∀ rows collections,
     _process_csv_file rows = Ok collections →
     ∃ converted,
       Forall2 (λ row fc, process_row row = Ok fc) rows converted ∧
       (λ c, crs_name_of (crs c)) <$> collections
         = first_occurrences ((λ fc, crs_name_of fc.2) <$> converted) ∧
       Forall (λ c, features c
                    = features_tagged (crs_name_of (crs c)) converted)
         collections ∧
       Forall (λ c, Forall (dimension_consistent (crs_name_of (crs c)))
                      (features c))
         collections ∧
       concat (features <$> collections) ≡ₚ converted.*1) ∧
  (∀ (with_z without_z : Row) feature crs feature' crs',
     get with_z "Tabell ID" = Some "109" →
     get without_z "Tabell ID" = Some "109" →
     truthy (get_default with_z "z" "") = true →
     truthy (get_default without_z "z" "") = false →
     process_row with_z = Ok (feature, crs) →
     process_row without_z = Ok (feature', crs') →
     _process_csv_file [with_z; without_z]
       = Ok [ {| crs := Crs_named "EPSG:5972"; features := [feature] |};
              {| crs := Crs_named "EPSG:25832"; features := [feature'] |} ] ∧
     _process_csv_file [without_z; with_z]
       = Ok [ {| crs := Crs_named "EPSG:25832"; features := [feature'] |};
              {| crs := Crs_named "EPSG:5972"; features := [feature] |} ]) ∧
  (∀ rows converted,
     Forall2 (λ row fc, process_row row = Ok fc) rows converted →
     ∃ collections, _process_csv_file rows = Ok collections).
Proof.
  split_and!; [| | intros rows converted Hall; eexists;
                   by apply process_csv_file_converted].
  - intros rows collections (converted & Hall & ->)%process_csv_file_Ok.
    exists converted. split_and!; [done | | | |].
    + rewrite <-list_fmap_compose. etrans; [|apply list_fmap_id].
      by apply list_fmap_ext.
    + apply Forall_fmap, Forall_true. done.
    + apply Forall_fmap, Forall_forall. intros tag Htag. simpl.
      apply Forall_forall. intros feature (crs & Hin & Hcrs)%elem_of_features_tagged.
      apply list_elem_of_lookup in Hin as [i Hi].
      destruct (Forall2_lookup_r _ _ _ _ _ Hall Hi) as (row & _ & Hrow).
      apply process_row_geometry in Hrow as (cs & is_line & Hgeo).
      apply create_geometry_dimension in Hgeo as [[Hname Hdim] | [Hname Hdim]].
      * right. split; [|done]. change (tag = "EPSG:5972"). congruence.
      * left. split; [|done]. change (tag = "EPSG:25832"). congruence.
    + rewrite <-list_fmap_compose.
      apply (buckets_partition _ converted (NoDup_first_occurrences _)).
      intros fc Hfc. apply elem_of_first_occurrences, list_elem_of_fmap.
      by exists fc.
  - intros with_z without_z feature crs feature' crs'
      Hid Hid' Hz Hz' Hrow Hrow'.
    assert (crs = Crs_named "EPSG:5972") as ->.
    { pose proof Hrow as [(_ & Hmast) | [(? & _) | (? & _)]]%process_row_Ok;
        [|congruence..].
      apply overhead_structure_crs in Hmast. apply Hmast in Hz.
      pose proof Hrow as (cs & is_line & Hgeo)%process_row_geometry.
      by apply create_geometry_crs in Hgeo as (_ & _ & [-> | ->]). }
    assert (crs' = Crs_named "EPSG:25832") as ->.
    { pose proof Hrow' as [(_ & Hmast) | [(? & _) | (? & _)]]%process_row_Ok;
        [|congruence..].
      apply overhead_structure_crs in Hmast.
      pose proof Hrow' as (cs & is_line & Hgeo)%process_row_geometry.
      apply create_geometry_crs in Hgeo as (_ & _ & [-> | ->]); [|done].
      rewrite (proj1 Hmast eq_refl) in Hz'. discriminate. }
    unfold _process_csv_file. simpl. rewrite Hrow, Hrow'. done.
Qed.

Lemma collections_keep_first_occurrence_and_input_order_witness :
  ∃ feature feature',
    @_process_csv_file Reference.runtime [Rows.mast_with_z; Rows.mast_without_z]
      = Ok [ {| crs := Crs_named "EPSG:5972"; features := [feature] |};
             {| crs := Crs_named "EPSG:25832"; features := [feature'] |} ].
Proof.
  assert (∃ feature crs,
            @process_row Reference.runtime Rows.mast_with_z = Ok (feature, crs))
    as (feature & crs & Hrow) by (do 2 eexists; reflexivity).
  assert (∃ feature crs,
            @process_row Reference.runtime Rows.mast_without_z = Ok (feature, crs))
    as (feature' & crs' & Hrow') by (do 2 eexists; reflexivity).
  exists feature, feature'.
  apply (proj1 (proj2 (@collections_keep_first_occurrence_and_input_order
                         Reference.runtime))
           Rows.mast_with_z Rows.mast_without_z feature crs feature' crs');
    [reflexivity | reflexivity | reflexivity | reflexivity | exact Hrow | exact Hrow'].
Defined.

(** ** Aborting *)

Lemma process_rows_some_Raise `{PyRuntime} (rows : list Row) feature_by_crs :
  Exists (λ r, ∃ e, process_row r = Raise e) rows →
  ∃ e, process_rows rows feature_by_crs = Raise e.
Proof.
  intros Hfail. revert feature_by_crs.
  induction rows as [|r rows IH]; intros feature_by_crs.
  - by apply Exists_nil in Hfail.
  - simpl. destruct (process_row r) as [[feature crs]|e] eqn:Hr; simpl.
    + apply IH. apply Exists_cons in Hfail as [[e He]|Hrest]; [congruence | done].
    + by exists e.
Qed.

Lemma process_csv_file_Raise `{PyRuntime} (before after : list Row) (row : Row) e :
  Forall (λ r, ∃ fc, process_row r = Ok fc) before →
  process_row row = Raise e →
  _process_csv_file (before ++ row :: after) = Raise e.
Proof.
  intros Hbefore Hrow. unfold _process_csv_file.
  by rewrite (process_rows_Raise before after row e [] Hbefore Hrow).
Qed.

(** C5, as stated, fails: a batch that holds a record of unknown category
    after a record with an empty status raises "Unknown Status", not
    "Unknown Tabell ID". *)
Lemma unknown_category_after_a_failing_row :
  unknown_category Rows.unknown_table ∧
  Rows.unknown_table ∈ [Rows.mast_empty_status; Rows.unknown_table] ∧
  @_process_csv_file Reference.runtime [Rows.mast_empty_status; Rows.unknown_table]
    = Raise (ValueError (Unknown_Status (Some ""))) ∧
  ∀ table_id,
    @_process_csv_file Reference.runtime [Rows.mast_empty_status; Rows.unknown_table]
      ≠ Raise (ValueError (Unknown_Tabell_ID table_id)).
Proof.
  assert (@_process_csv_file Reference.runtime
            [Rows.mast_empty_status; Rows.unknown_table]
          = Raise (ValueError (Unknown_Status (Some "")))) as Hraised
    by reflexivity.
  split_and!.
  - split; compute_done.
  - right. left.
  - exact Hraised.
  - intros table_id. rewrite Hraised. discriminate.
Qed.

(** C5, amended. A batch that holds a record whose Tabell ID is neither
    "261" nor "109" never yields collections: _process_csv_file raises.
    What it raises is the error of the first record that fails to convert,
    whatever was accumulated before and whatever follows: when every record
    before the unknown one converts, the "Unknown Tabell ID" ValueError
    carrying that record's Tabell ID; when an earlier record fails, that
    record's error. *)
Theorem unknown_category_aborts_at_first_failure `{PyRuntime}
    (before after : list Row) (row : Row) :
  unknown_category row →
  (∃ e, _process_csv_file (before ++ row :: after) = Raise e) ∧
  (Forall (λ r, ∃ fc, process_row r = Ok fc) before →
   _process_csv_file (before ++ row :: after)
     = Raise (ValueError (Unknown_Tabell_ID (get row "Tabell ID")))) ∧
  (∀ converted failing rest e,
     before = converted ++ failing :: rest →
     Forall (λ r, ∃ fc, process_row r = Ok fc) converted →
     process_row failing = Raise e →
     _process_csv_file (before ++ row :: after) = Raise e).
Proof.
  intros Hrow%process_row_unknown_category. split_and!.
  - unfold _process_csv_file.
    destruct (process_rows_some_Raise (before ++ row :: after) []) as [e He].
    + apply Exists_app. right. left. by eexists.
    + exists e. by rewrite He.
  - intros Hbefore. by apply process_csv_file_Raise.
  - intros converted failing rest e -> Hconverted Hfailing.
    rewrite <-app_assoc. simpl. by apply process_csv_file_Raise.
Qed.

Lemma unknown_category_aborts_at_first_failure_witness :
  @_process_csv_file Reference.runtime
    [Rows.mast_with_z; Rows.unknown_table; Rows.mast_without_z]
    = Raise (ValueError (Unknown_Tabell_ID (Some "999"))).
Proof.
  assert (unknown_category Rows.unknown_table) as Hunknown
    by (split; compute_done).
  apply (proj1 (proj2 (@unknown_category_aborts_at_first_failure
                         Reference.runtime [Rows.mast_with_z]
                         [Rows.mast_without_z] Rows.unknown_table Hunknown))).
  apply Forall_cons_2; [|apply Forall_nil_2].
  eexists. reflexivity.
Defined.

(** * Further properties of the converter *)

(** ** The three assembly paths, opened *)

Lemma overhead_structure_feature `{PyRuntime} (row : Row) feature crs :
  convert_overhead_structure_rows row = Ok (feature, crs) →
  ∃ komponentident masttype feature_status høydereferanse max_height x y point,
    get_uuid row ["OverheadStructure_uuid"; "ID"] = Ok komponentident ∧
    map_mast_type (get row "Masttype (NRL)") = Ok masttype ∧
    map_feature_status (get row "Status (NRL)") = Ok feature_status ∧
    optional_float row "Vertikalavstand meter (NRL)" "Vertikalavstand"
      = Ok max_height ∧
    row !! "x" = Some x ∧ row !! "y" = Some y ∧
    create_geometry [[x; y; get_default row "z" ""]] false = Ok (point, crs) ∧
    feature =
      {| geometry := point;
         properties := Mast {|
           NrlMast.komponentident := komponentident;
           NrlMast.status := feature_status;
           NrlMast.verifisert_rapporteringsnøyaktighet :=
             map_location_method (get row "Verifisert nøyaktighet (NRL)");
           NrlMast.feature_type := "NrlMast";
           NrlMast.mast_type := masttype;
           NrlMast.luftfartshinderlyssetting :=
             map_lighting_kind (get row "Luftfartshinderlyssetting(NRL)");
           NrlMast.luftfartshindermerking :=
             map_marking_kind (get row "Luftfartshindermerking (NRL)");
           NrlMast.høydereferanse := høydereferanse;
           NrlMast.vertikal_avstand := max_height |} |}.
Proof.
  unfold convert_overhead_structure_rows. intros Hrow. converter_inv.
  do 8 eexists. by split_and!.
Qed.

Lemma guy_segment_feature `{PyRuntime} (row : Row) feature crs :
  convert_guy_segments_rows row = Ok (feature, crs) →
  ∃ komponentident feature_status coordinates linestring,
    get_uuid row ["Guy_uuid"; "ID"] = Ok komponentident ∧
    map_feature_status (get row "Status (NRL)") = Ok feature_status ∧
    line_coordinates row = Ok coordinates ∧
    create_geometry coordinates true = Ok (linestring, crs) ∧
    feature =
      {| geometry := linestring;
         properties := Luftspenn {|
           NrlLuftspenn.luftspenn_type := bardun;
           NrlLuftspenn.komponentident := komponentident;
           NrlLuftspenn.nrl_mast := None;
           NrlLuftspenn.status := feature_status;
           NrlLuftspenn.verifisert_rapporteringsnøyaktighet :=
             map_location_method (get row "Vertikalavstand meter (NRL)");
           NrlLuftspenn.feature_type := "NrlLuftspenn";
           NrlLuftspenn.referanse := komponentreferanse_of row;
           NrlLuftspenn.luftfartshinderlyssetting := None;
           NrlLuftspenn.luftfartshindermerking := None;
           NrlLuftspenn.anleggsbredde := None |} |}.
Proof.
  unfold convert_guy_segments_rows. intros Hrow. converter_inv.
  do 4 eexists. by split_and!.
Qed.

Lemma ac_linesegment_feature `{PyRuntime} (row : Row) feature crs :
  convert_ac_linesegments_rows row = Ok (feature, crs) →
  ∃ komponentident feature_status luftspennstype coordinates linestring mast
    anleggsbredde,
    get_uuid row ["ACLineSegmentSpan_uuid"; "ID"] = Ok komponentident ∧
    map_feature_status (get row "Status (NRL)") = Ok feature_status ∧
    map_luftspenn_type (get row "Luftspenntype (NRL)") = Ok luftspennstype ∧
    line_coordinates row = Ok coordinates ∧
    create_geometry coordinates true = Ok (linestring, crs) ∧
    mast_references row = Ok mast ∧
    optional_float row "Anleggsbredde meter (NRL)" "Anleggsbredde"
      = Ok anleggsbredde ∧
    feature =
      {| geometry := linestring;
         properties := Luftspenn {|
           NrlLuftspenn.luftspenn_type := luftspennstype;
           NrlLuftspenn.komponentident := komponentident;
           NrlLuftspenn.nrl_mast := Some mast;
           NrlLuftspenn.status := feature_status;
           NrlLuftspenn.verifisert_rapporteringsnøyaktighet :=
             map_location_method (get row "Verifisert nøyaktighet (NRL)");
           NrlLuftspenn.feature_type := "NrlLuftspenn";
           NrlLuftspenn.referanse := komponentreferanse_of row;
           NrlLuftspenn.luftfartshinderlyssetting :=
             map_lighting_kind (Some "Luftfartshinderlyssetting(NRL)");
           NrlLuftspenn.luftfartshindermerking :=
             map_marking_kind (Some "Luftfartshindermerking(NRL)");
           NrlLuftspenn.anleggsbredde := anleggsbredde |} |}.
Proof.
  unfold convert_ac_linesegments_rows. intros Hrow. converter_inv.
  do 7 eexists. by split_and!.
Qed.

(** ** Lookups and failures *)

Lemma dict_get_Some {V} (mapping : list (string * V)) (value : option string) (v : V) :
  dict_get mapping value = Some v → ∃ s, value = Some s ∧ (s, v) ∈ mapping.
Proof.
  induction mapping as [|[k w] mapping IH]; simpl; [done|].
  case_decide as Hk.
  - intros [= ->]. exists k. split; [done | left].
  - intros (s & Hs & Hin)%IH. exists s. split; [done | by right].
Qed.

Lemma dict_get_elem_of {V} (mapping : list (string * V)) (s : string) (v : V) :
  NoDup mapping.*1 → (s, v) ∈ mapping → dict_get mapping (Some s) = Some v.
Proof.
  induction mapping as [|[k w] mapping IH]; simpl; intros Hkeys Hin.
  - by apply elem_of_nil in Hin.
  - apply NoDup_cons in Hkeys as [Hk Hkeys].
    apply elem_of_cons in Hin as [[= -> ->]|Hin].
    + by rewrite decide_True.
    + rewrite decide_False; [by apply IH|].
      intros [= ->]. apply Hk. apply list_elem_of_fmap. by exists (k, v).
Qed.

Lemma bind_Raise_inv {A B} (m : result A) (f : A → result B) (e : exn) :
  m ≫= f = Raise e → m = Raise e ∨ ∃ a, m = Ok a ∧ f a = Raise e.
Proof. destruct m as [a|e']; simpl; [right; by exists a | left; congruence]. Qed.

Lemma item_Raise (row : Row) (field : string) e :
  item row field = Raise e → e = KeyError field ∧ row !! field = None.
Proof. unfold item. destruct (row !! field); [done|]. by intros [= <-]. Qed.

Lemma index_Raise {A} (l : list A) (i : nat) e :
  index l i = Raise e → e = IndexError ∧ length l ≤ i.
Proof.
  unfold index. destruct (l !! i) eqn:Hi; [done|]. intros [= <-].
  by apply lookup_ge_None in Hi.
Qed.

Lemma parse_float_Raise `{PyRuntime} (value : option string) (field_name : string) e :
  parse_float value field_name = Raise e →
  e = ValueError (Missing field_name) ∧ value = None ∨
  ∃ text, e = ValueError (is_not_a_valid_number field_name text) ∧
          value = Some text ∧
          float_of (replace ","%char "."%char text) = None.
Proof.
  unfold parse_float. destruct value as [text|].
  - destruct (float_of _) eqn:Hf; [done|]. intros [= <-]. right. by exists text.
  - intros [= <-]. by left.
Qed.

Lemma for_each_Raise {A B} (f : A → result B) (l : list A) e :
  for_each f l = Raise e → ∃ x, x ∈ l ∧ f x = Raise e.
Proof.
  induction l as [|x l IH]; simpl; [done|]. intros Hl.
  apply bind_Raise_inv in Hl as [Hx | (y & _ & Hl)].
  - exists x. split; [left | done].
  - apply bind_Raise_inv in Hl as [Hl | (ys & _ & Hl)]; [|done].
    apply IH in Hl as (x' & Hin & Hx'). exists x'. split; [by right | done].
Qed.

Lemma not_in_None_empty_truthy (z : option string) :
  not_in_None_empty z = truthy z.
Proof.
  destruct (truthy z) eqn:Hz.
  - by apply not_in_None_empty_true, truthy_true.
  - destruct (not_in_None_empty z) eqn:Hne; [|done].
    by apply not_in_None_empty_true, truthy_true in Hne; congruence.
Qed.

Lemma all_have_z_Raise (coordinates : list (list (option string))) e :
  all_have_z coordinates = Raise e →
  e = IndexError ∧ Exists (λ c, length c < 3) coordinates.
Proof.
  induction coordinates as [|c rest IH]; simpl; [done|]. intros Hall.
  apply bind_Raise_inv in Hall as [[-> Hc]%index_Raise | (z & _ & Hall)].
  - split; [done|]. left. lia.
  - destruct (not_in_None_empty z); [|done].
    apply IH in Hall as [-> Hrest]. split; [done | by right].
Qed.

Lemma parse_coordinates_Raise `{PyRuntime} (coords : list (option string)) e :
  parse_coordinates coords = Raise e →
  ∃ text, e = ValueError (could_not_convert_string_to_float
                            (replace ","%char "."%char text)) ∧
          Some text ∈ coords ∧ text ≠ "" ∧
          float_of (replace ","%char "."%char text) = None.
Proof.
  induction coords as [|[c|] rest IH]; simpl; [done| |].
  - destruct (String.eqb_spec c "") as [->|Hc]; simpl.
    + intros (text & ? & ? & ? & ?)%IH. exists text. split_and!; [done | by right | done..].
    + destruct (float_of _) eqn:Hf.
      * intros [Hrest | (fs & _ & ?)]%bind_Raise_inv; [|done].
        apply IH in Hrest as (text & ? & ? & ? & ?).
        exists text. split_and!; [done | by right | done..].
      * intros [= <-]. exists c. split_and!; [done | left | done..].
  - intros (text & ? & ? & ? & ?)%IH. exists text. split_and!; [done | by right | done..].
Qed.

(** Splits every hypothesis [m ≫= f = Raise e] into the step that raised. *)
Ltac raise_inv :=
  repeat match goal with
  | H : _ ≫= _ = Raise _ |- _ =>
      let a := fresh "a" in
      let Ha := fresh "Ha" in
      apply bind_Raise_inv in H as [H | (a & Ha & H)]
  | H : Ok _ = Raise _ |- _ => discriminate H
  | H : mret _ = Raise _ |- _ => discriminate H
  end.

Lemma except_ValueError_Raise {A} (body : result A) h e :
  except_ValueError body h = Raise e →
  (∃ m, body = Raise (ValueError m) ∧ e = ValueError (h m)) ∨
  (body = Raise e ∧ ∀ m, e ≠ ValueError m).
Proof.
  destruct body as [a|[m|k|]]; simpl; intros [= <-]; [left; by exists m | right..];
    by split.
Qed.

Lemma line_position_Raise `{PyRuntime} (c : list (option string)) e :
  line_position_3d c = Raise e ∨ line_position_2d c = Raise e →
  (e = IndexError ∧ length c < 3) ∨
  ∃ m, e = ValueError m ∧ line_parse_error m.
Proof.
  assert (∀ value field_name,
            field_name ∈ ["y"; "x"; "z"] →
            parse_float value field_name = Raise e →
            ∃ m, e = ValueError m ∧ line_parse_error m) as Hparse.
  { intros value field_name Hfield
      [[-> _] | (text & -> & _ & _)]%parse_float_Raise; eexists; (split; [done|]);
      exists field_name; (split; [done|]); [by left | right; by exists text]. }
  unfold line_position_3d, line_position_2d. intros [Hc | Hc]; raise_inv;
    try (apply index_Raise in Hc as [-> Hlen]; left; split; [done | lia]);
    right; (eapply Hparse; [|exact Hc]); set_solver.
Qed.

Lemma build_geometry_Raise `{PyRuntime}
    (coordinates : list (list (option string))) (is_line has_z : bool) e :
  build_geometry coordinates is_line has_z = Raise e →
  (e = IndexError ∧
   (Exists (λ c, length c < 3) coordinates ∨
    (is_line = false ∧ coordinates = []))) ∨
  ∃ m, e = ValueError m ∧
       if is_line then line_parse_error m else point_parse_error m.
Proof.
  unfold build_geometry. intros Hgeo.
  destruct has_z, is_line; raise_inv.
  - apply for_each_Raise in Hgeo as (c & Hin & Hc).
    destruct (line_position_Raise c e (or_introl Hc)) as [[-> Hlen] | Hm]; [|by right].
    left. split; [done|]. left. apply Exists_exists. by exists c.
  - apply index_Raise in Hgeo as [-> Hlen]. left. split; [done|]. right.
    split; [done|]. by destruct coordinates; [|simpl in Hlen; lia].
  - apply parse_coordinates_Raise in Hgeo as (text & -> & _). right.
    eexists. split; [done|]. left. by eexists.
  - right.
    match type of Hgeo with
    | match ?parsed with _ => _ end = _ =>
        destruct parsed as [|x [|y [|z [|]]]]
    end; try discriminate;
      injection Hgeo as <-; (eexists; split; [done|]); right;
      do 2 eexists; (split; [done|]); simpl; lia.
  - apply for_each_Raise in Hgeo as (c & Hin & Hc).
    destruct (line_position_Raise c e (or_intror Hc)) as [[-> Hlen] | Hm]; [|by right].
    left. split; [done|]. left. apply Exists_exists. by exists c.
  - apply index_Raise in Hgeo as [-> Hlen]. left. split; [done|]. right.
    split; [done|]. by destruct coordinates; [|simpl in Hlen; lia].
  - apply parse_coordinates_Raise in Hgeo as (text & -> & _). right.
    eexists. split; [done|]. left. by eexists.
  - right.
    match type of Hgeo with
    | match ?parsed with _ => _ end = _ =>
        destruct parsed as [|x [|y [|]]]
    end; try discriminate;
      injection Hgeo as <-; (eexists; split; [done|]); right;
      do 2 eexists; (split; [done|]); simpl; lia.
Qed.

(** ** What create_geometry raises *)

(** X1. create_geometry raises nothing but: IndexError, when a coordinate
    has fewer than three components or a point is asked of no coordinate;
    the "LineString requires exactly 2 points" ValueError, for a line of
    other than 2 coordinates; and the "Invalid coordinate values"
    ValueError, which wraps parse_float's error on y, x or z for a line, and
    float's own error or an unpacking mismatch for a point. It never raises
    KeyError, and no parse error leaves it unwrapped. *)
Theorem create_geometry_raises_only `{PyRuntime}
    (coordinates : list (list (option string))) (is_line : bool) e :
  create_geometry coordinates is_line = Raise e →
  (e = IndexError ∧
   (Exists (λ c, length c < 3) coordinates ∨
    (is_line = false ∧ coordinates = []))) ∨
  (e = ValueError LineString_requires_exactly_2_points ∧
   is_line = true ∧ length coordinates ≠ 2) ∨
  (∃ m, e = ValueError (Invalid_coordinate_values m) ∧
        if is_line then line_parse_error m else point_parse_error m).
Proof.
  unfold create_geometry. intros Hgeo.
  apply bind_Raise_inv in Hgeo as [[-> Hshort]%all_have_z_Raise | (has_z & _ & Hgeo)].
  { left. split; [done | by left]. }
  destruct (is_line && _) eqn:Harity.
  { injection Hgeo as <-. right. left.
    apply andb_true_iff in Harity as [-> Hlen%negb_true_iff%Nat.eqb_neq]. done. }
  apply except_ValueError_Raise in Hgeo as [(m & Hbody & ->) | [Hbody Hother]].
  - apply build_geometry_Raise in Hbody as [[? _] | (m' & [= <-] & Hm)]; [done|].
    right. right. by exists m.
  - apply build_geometry_Raise in Hbody as [[-> Hshort] | (m & -> & _)].
    + by left.
    + by destruct (Hother m).
Qed.

Lemma create_geometry_raises_only_witness :
  line_parse_error (is_not_a_valid_number "y" "numbers").
Proof.
  destruct (@create_geometry_raises_only Reference.runtime
              [[Some "not"; Some "numbers"; Some "10"];
               [Some "300"; Some "400"; Some "20"]] true
              (ValueError (Invalid_coordinate_values
                             (is_not_a_valid_number "y" "numbers"))))
    as [[Hindex _] | [[Harity _] | (m & Hm & Hline)]];
    [reflexivity | discriminate Hindex | discriminate Harity |].
  injection Hm as <-. exact Hline.
Defined.

(** ** What create_geometry accepts *)

Lemma all_have_z_elevated (coordinates : list (list (option string))) :
  Forall has_elevation coordinates → all_have_z coordinates = Ok true.
Proof.
  induction 1 as [|c rest (z & Hc & Hz) _ IH]; simpl; [done|].
  unfold index. rewrite Hc. simpl.
  by rewrite not_in_None_empty_truthy, (proj2 (truthy_true (Some z))), IH by eauto.
Qed.

Lemma all_have_z_lacking (coordinates : list (list (option string))) :
  Forall (λ c, 3 ≤ length c) coordinates →
  Exists (λ c, ¬ has_elevation c) coordinates →
  all_have_z coordinates = Ok false.
Proof.
  intros Hthird Hnone.
  destruct (all_have_z_total coordinates Hthird) as ([] & Hz & Hiff); [|done].
  exfalso. by apply (Exists_not_Forall has_elevation coordinates Hnone), Hiff.
Qed.

(** X2. create_geometry returns on well-formed input, with (y, x[, z]) of
    every coordinate: given coordinate triples (2 of them for a line, at
    least 1 for a point) whose x and y are numeric, it returns 3D geometry
    with "EPSG:5972" when every z is numeric, and 2D geometry with
    "EPSG:25832" when every z is None or empty. A line gets all positions,
    a point the first. *)
Theorem create_geometry_accepts_well_formed `{PyRuntime}
    (coordinates : list (list (option string))) (is_line : bool) :
  (is_line = true → length coordinates = 2) →
  coordinates ≠ [] →
  (∀ xyz : list (Float * Float * Float),
     Forall2 (λ c f, ∃ x y z, c = [x; y; z] ∧ numeric x f.1.1 ∧
                              numeric y f.1.2 ∧ numeric z f.2)
       coordinates xyz →
     ∃ geometry,
       geometry_of is_line ((λ f, [f.1.2; f.1.1; f.2]) <$> xyz) = Some geometry ∧
       create_geometry coordinates is_line
         = Ok (geometry, Crs_named "EPSG:5972")) ∧
  (∀ xy : list (Float * Float),
     Forall2 (λ c f, ∃ x y z, c = [x; y; z] ∧ truthy z = false ∧
                              numeric x f.1 ∧ numeric y f.2)
       coordinates xy →
     ∃ geometry,
       geometry_of is_line ((λ f, [f.2; f.1]) <$> xy) = Some geometry ∧
       create_geometry coordinates is_line
         = Ok (geometry, Crs_named "EPSG:25832")).
Proof.
  intros Hlen Hnonempty. split.
  - intros xyz Hxyz.
    assert (all_have_z coordinates = Ok true) as Hz.
    { apply all_have_z_elevated. eapply Forall2_Forall_l; [exact Hxyz|].
      apply Forall_true. intros f c (x & y & z & -> & _ & _ & Hne & text & -> & _).
      exists text. split; [done | congruence]. }
    unfold create_geometry. rewrite Hz. simpl. destruct is_line.
    + rewrite (Hlen eq_refl). simpl. unfold build_geometry.
      rewrite (for_each_all_Ok line_position_3d coordinates
                 ((λ f, [f.1.2; f.1.1; f.2]) <$> xyz)); [by eexists|].
      apply Forall2_fmap_r. eapply Forall2_impl; [exact Hxyz|]. simpl.
      intros c f (x & y & z & -> & [_ Hx] & [_ Hy] & [_ Hfz]).
      apply line_position_3d_Ok. exists x, y, f.1.1, f.1.2.
      split_and!; try done. by exists z, f.2.
    + simpl. unfold build_geometry.
      destruct Hxyz as [|c f rest xyz' (x & y & z & -> & Hx & Hy & Hfz) _]; [done|].
      pose proof (parse_coordinates_numeric [x; y; z] [f.1.1; f.1.2; f.2]) as Hparse.
      simpl in *. rewrite Hparse; [by eexists|].
      constructor; [done | constructor; [done | constructor; [done | constructor]]].
  - intros xy Hxy.
    assert (all_have_z coordinates = Ok false) as Hz.
    { apply all_have_z_lacking.
      - eapply Forall2_Forall_l; [exact Hxy|]. apply Forall_true.
        by intros f c (x & y & z & -> & _).
      - destruct Hxy as [|c f rest xy' (x & y & z & -> & Hfalsy & _) _]; [done|].
        left. intros (text & [= ->] & Htext).
        by rewrite (proj2 (truthy_true (Some text))) in Hfalsy by eauto. }
    unfold create_geometry. rewrite Hz. simpl. destruct is_line.
    + rewrite (Hlen eq_refl). simpl. unfold build_geometry.
      rewrite (for_each_all_Ok line_position_2d coordinates
                 ((λ f, [f.2; f.1]) <$> xy)); [by eexists|].
      apply Forall2_fmap_r. eapply Forall2_impl; [exact Hxy|]. simpl.
      intros c f (x & y & z & -> & _ & [_ Hx] & [_ Hy]).
      apply line_position_2d_Ok. by exists x, y, f.1, f.2.
    + simpl. unfold build_geometry.
      destruct Hxy as [|c f rest xy' (x & y & z & -> & _ & Hx & Hy) _]; [done|].
      pose proof (parse_coordinates_numeric [x; y] [f.1; f.2]) as Hparse.
      simpl in *. rewrite Hparse; [by eexists|].
      constructor; [done | constructor; [done | constructor]].
Qed.

Lemma create_geometry_accepts_well_formed_witness :
  (∃ geometry,
     geometry
       = @LineString Reference.runtime
           [[Qmake 200 1; Qmake 100 1; Qmake 10 1];
            [Qmake 400 1; Qmake 300 1; Qmake 41 2]] ∧
     @create_geometry Reference.runtime
       [[Some "100"; Some "200"; Some "10"]; [Some "300"; Some "400"; Some "20,5"]]
       true = Ok (geometry, Crs_named "EPSG:5972")) ∧
  (∃ geometry,
     geometry = @Point Reference.runtime [Qmake 200 1; Qmake 100 1] ∧
     @create_geometry Reference.runtime [[Some "100"; Some "200"; None]] false
       = Ok (geometry, Crs_named "EPSG:25832")).
Proof.
  split.
  - destruct (proj1 (@create_geometry_accepts_well_formed Reference.runtime
        [[Some "100"; Some "200"; Some "10"]; [Some "300"; Some "400"; Some "20,5"]]
        true (λ _, eq_refl) ltac:(discriminate))
        [(Qmake 100 1, Qmake 200 1, Qmake 10 1);
         (Qmake 300 1, Qmake 400 1, Qmake 41 2)])
      as (geometry & Hgeometry & Hcreated).
    + constructor; [|constructor; [|constructor]].
      * exists (Some "100"), (Some "200"), (Some "10").
        split_and!; [done | split; [done | by exists "100"]
                    | split; [done | by exists "200"]
                    | split; [done | by exists "10"]].
      * exists (Some "300"), (Some "400"), (Some "20,5").
        split_and!; [done | split; [done | by exists "300"]
                    | split; [done | by exists "400"]
                    | split; [done | by exists "20,5"]].
    + exists geometry. split; [|exact Hcreated]. by injection Hgeometry as <-.
  - destruct (proj2 (@create_geometry_accepts_well_formed Reference.runtime
        [[Some "100"; Some "200"; None]] false ltac:(discriminate)
        ltac:(discriminate))
        [(Qmake 100 1, Qmake 200 1)])
      as (geometry & Hgeometry & Hcreated).
    + constructor; [|constructor].
      exists (Some "100"), (Some "200"), None.
      split_and!; [done | done | split; [done | by exists "100"]
                  | split; [done | by exists "200"]].
    + exists geometry. split; [|exact Hcreated]. by injection Hgeometry as <-.
Defined.

(** X3. A point drops blank components before it parses, so a blank x or y
    shows as an unpacking error, while a line names the component. With no
    elevation and a numeric y: a point whose x is None or empty raises
    "Invalid coordinate values" wrapping the unpacking of 1 value into 2
    names, and of 0 values when y is blank too; a line whose first
    coordinate has x None raises it wrapping "Missing x". *)
Theorem blank_component_point_unpacks_line_names `{PyRuntime}
    (x y z : option string) (fy : Float) :
  truthy x = false → truthy z = false → numeric y fy →
  create_geometry [[x; y; z]] false
    = Raise (ValueError (Invalid_coordinate_values (values_to_unpack 2 1))) ∧
  (∀ y', truthy y' = false →
     create_geometry [[x; y'; z]] false
       = Raise (ValueError (Invalid_coordinate_values (values_to_unpack 2 0)))) ∧
  (∀ c, length c = 3 →
     create_geometry [[None; y; z]; c] true
       = Raise (ValueError (Invalid_coordinate_values (Missing "x")))).
Proof.
  intros Hx Hz (Hy & text & -> & Hfy).
  assert (text ≠ "") as Htext%String.eqb_neq by congruence.
  assert (∀ v, truthy v = false → parse_coordinates [v] = Ok []) as Hblank.
  { intros [v|] Hv; simpl; [|done]. simpl in Hv. by rewrite Hv. }
  unfold create_geometry. simpl. rewrite !not_in_None_empty_truthy, Hz. simpl.
  split_and!.
  - unfold build_geometry. simpl.
    destruct x as [x|]; simpl in *; [rewrite Hx|]; simpl;
      by rewrite Htext, Hfy.
  - intros y' Hy'. unfold build_geometry. simpl.
    destruct x as [x|]; simpl in *; [rewrite Hx|]; simpl;
      by rewrite (Hblank y' Hy').
  - intros c Hc. unfold build_geometry. simpl.
    assert (line_position_2d [None; Some text; z]
              = Raise (ValueError (Missing "x"))) as ->; [|done].
    unfold line_position_2d. simpl. by rewrite Hfy.
Qed.

Lemma blank_component_point_unpacks_line_names_witness :
  @create_geometry Reference.runtime [[Some ""; Some "200"; Some ""]] false
    = Raise (ValueError (Invalid_coordinate_values (values_to_unpack 2 1))).
Proof.
  apply (@blank_component_point_unpacks_line_names Reference.runtime
           (Some "") (Some "200") (Some "") (Qmake 200 1));
    [reflexivity | reflexivity |].
  split; [done | by exists "200"].
Defined.

(** ** What process_row raises *)

Lemma get_uuid_Raise `{PyRuntime} (row : Row) (fields : list string) e :
  get_uuid row fields = Raise e →
  e = ValueError (No_valid_UUID_found_in_fields fields).
Proof. unfold get_uuid. destruct (get_uuid_loop row fields); [done | congruence]. Qed.

Lemma required_enum_Raise (value : option string) e :
  map_luftspenn_type value = Raise e ∨ map_mast_type value = Raise e ∨
  map_feature_status value = Raise e →
  ∃ m, e = ValueError m ∧ m ≠ LineString_requires_exactly_2_points.
Proof.
  unfold map_luftspenn_type, map_mast_type, map_feature_status.
  intros [He | [He | He]]; destruct (dict_get _ value); try discriminate;
    injection He as <-; by eexists.
Qed.

(** A column read under the guard [if row.get(column)] is there. *)
Lemma guarded_item (row : Row) (column : string) :
  truthy (get row column) = true → ∃ text, item row column = Ok (Some text).
Proof.
  intros (text & Hget & _)%truthy_true. unfold get, item in *.
  destruct (row !! column) as [[?|]|]; simpl in *; simplify_eq. by exists text.
Qed.

Lemma optional_float_Raise `{PyRuntime} (row : Row) (column field_name : string) e :
  optional_float row column field_name = Raise e →
  ∃ text, e = ValueError (is_not_a_valid_number field_name text) ∧
          row !! column = Some (Some text) ∧
          float_of (replace ","%char "."%char text) = None.
Proof.
  unfold optional_float. destruct (truthy (get row column)) eqn:Hguard; [|done].
  destruct (guarded_item row column Hguard) as [text Hitem]. rewrite Hitem. simpl.
  destruct (float_of _) eqn:Hf; [done|]. intros [= <-].
  exists text. by apply item_Ok in Hitem.
Qed.

Lemma mast_references_Raise `{PyRuntime} (row : Row) e :
  mast_references row = Raise e →
  ∃ column text,
    column ∈ ["Mast_1_ObjectID"; "Mast_2_ObjectID"] ∧
    row !! column = Some (Some text) ∧ text ≠ "" ∧ UUID text = None ∧
    e = ValueError (badly_formed_UUID text).
Proof.
  unfold mast_references.
  intros (column & [Hguard Hcolumn]%list_elem_of_filter & He)%for_each_Raise.
  destruct (guarded_item row column Hguard) as [text Hitem].
  rewrite Hitem in He. simpl in He.
  destruct (UUID text) eqn:Hu; [done|]. injection He as <-.
  apply truthy_true in Hguard as (text' & Hget & Hne).
  apply item_Ok in Hitem. unfold get in Hget. rewrite Hitem in Hget.
  injection Hget as <-. by exists column, text.
Qed.

(** The converters give create_geometry coordinate triples, and a line two
    of them: of its errors only the wrapped parse error is left. *)
Lemma create_geometry_of_row_Raise `{PyRuntime}
    (coordinates : list (list (option string))) (is_line : bool) e :
  Forall (λ c, length c = 3) coordinates →
  length coordinates = (if is_line then 2 else 1) →
  create_geometry coordinates is_line = Raise e →
  ∃ m, e = ValueError (Invalid_coordinate_values m).
Proof.
  intros Htriples Hlen. unfold create_geometry.
  assert (∀ c, c ∈ coordinates → ¬ length c < 3) as Hlong.
  { intros c Hin. rewrite Forall_forall in Htriples.
    specialize (Htriples c Hin). lia. }
  intros [[_ Hshort]%all_have_z_Raise | (has_z & _ & Hgeo)]%bind_Raise_inv.
  { apply Exists_exists in Hshort as (c & Hin & Hc). by destruct (Hlong c Hin). }
  destruct (is_line && _) eqn:Harity.
  { apply andb_true_iff in Harity as [-> Harity%negb_true_iff%Nat.eqb_neq]. done. }
  apply except_ValueError_Raise in Hgeo as [(m & _ & ->) | [Hbody Hother]].
  { by exists m. }
  apply build_geometry_Raise in Hbody as [[_ [Hshort | [-> ->]]] | (m & -> & _)].
  - apply Exists_exists in Hshort as (c & Hin & Hc). by destruct (Hlong c Hin).
  - discriminate Hlen.
  - by destruct (Hother m).
Qed.

Lemma line_coordinates_Ok (row : Row) coordinates :
  line_coordinates row = Ok coordinates →
  Forall (λ c, length c = 3) coordinates ∧ length coordinates = 2.
Proof.
  unfold line_coordinates. intros Hline. bind_inv. subst coordinates.
  split; [by repeat constructor | done].
Qed.

Lemma line_coordinates_Raise (row : Row) e :
  line_coordinates row = Raise e →
  ∃ column, e = KeyError column ∧ row !! column = None ∧
            column ∈ mandatory_columns.
Proof.
  unfold line_coordinates. intros Hline. raise_inv;
    apply item_Raise in Hline as [-> Habsent]; eexists;
    (split_and!; [done | exact Habsent | compute_done]).
Qed.

(** Closes a goal [row_error row e] from the step that raised [e]. *)
Ltac row_error_leaf :=
  match goal with
  | H : get_uuid _ _ = Raise _ |- _ =>
      apply get_uuid_Raise in H as ->; left; eexists; split; [done | discriminate]
  | H : map_luftspenn_type _ = Raise _ |- _ =>
      left; exact (required_enum_Raise _ _ (or_introl H))
  | H : map_mast_type _ = Raise _ |- _ =>
      left; exact (required_enum_Raise _ _ (or_intror (or_introl H)))
  | H : map_feature_status _ = Raise _ |- _ =>
      left; exact (required_enum_Raise _ _ (or_intror (or_intror H)))
  | H : optional_float _ _ _ = Raise _ |- _ =>
      apply optional_float_Raise in H as (? & -> & _);
      left; eexists; split; [done | discriminate]
  | H : mast_references _ = Raise _ |- _ =>
      apply mast_references_Raise in H as (? & ? & _ & _ & _ & _ & ->);
      left; eexists; split; [done | discriminate]
  | H : item _ _ = Raise _ |- _ =>
      apply item_Raise in H as [-> ?]; right; eexists;
      split_and!; [done | done | compute_done]
  | H : line_coordinates _ = Raise _ |- _ =>
      apply line_coordinates_Raise in H as (? & -> & ? & ?); right; eexists;
      split_and!; [done | done | done]
  | H : (let '(_, _) := ?pair in _) = Raise _ |- _ =>
      destruct pair; discriminate H
  end.

Lemma convert_overhead_structure_rows_Raise `{PyRuntime} (row : Row) e :
  convert_overhead_structure_rows row = Raise e → row_error row e.
Proof.
  unfold convert_overhead_structure_rows. intros Hrow. raise_inv;
    try row_error_leaf.
  - destruct (truthy (get row "Hoydereferanse (NRL)")) eqn:Hguard; [|done].
    destruct (guarded_item _ _ Hguard) as [text Hitem].
    by rewrite Hitem in Hrow.
  - apply create_geometry_of_row_Raise in Hrow as [m ->];
      [| by repeat constructor | done].
    left. eexists. split; [done | discriminate].
Qed.

Lemma convert_guy_segments_rows_Raise `{PyRuntime} (row : Row) e :
  convert_guy_segments_rows row = Raise e → row_error row e.
Proof.
  unfold convert_guy_segments_rows. intros Hrow. raise_inv;
    try row_error_leaf.
  match goal with
  | Hline : line_coordinates row = Ok _ |- _ =>
      apply line_coordinates_Ok in Hline as [Htriples Hlen]
  end.
  apply create_geometry_of_row_Raise in Hrow as [m ->]; [|done..].
  left. eexists. split; [done | discriminate].
Qed.

Lemma convert_ac_linesegments_rows_Raise `{PyRuntime} (row : Row) e :
  convert_ac_linesegments_rows row = Raise e → row_error row e.
Proof.
  unfold convert_ac_linesegments_rows. intros Hrow. raise_inv;
    try row_error_leaf.
  - match goal with
    | Hline : line_coordinates row = Ok _ |- _ =>
        apply line_coordinates_Ok in Hline as [Htriples Hlen]
    end.
    apply create_geometry_of_row_Raise in Hrow as [m ->]; [|done..].
    left. eexists. split; [done | discriminate].
  - match goal with
    | pair : (Geometry * Crs)%type |- _ => destruct pair
    end.
    raise_inv; row_error_leaf.
Qed.

(** X4. Whatever the row, process_row raises only a ValueError or the
    KeyError of a column it reads unguarded ("Betegnelse", "x", "y", "x1",
    "y1", "x2", "y2") and that the row does not have. It never raises
    IndexError, never the "LineString requires exactly 2 points" error, and
    an optional column that is absent is never a KeyError. *)
Theorem process_row_raises_only `{PyRuntime} (row : Row) e :
  process_row row = Raise e →
  (∃ m, e = ValueError m ∧ m ≠ LineString_requires_exactly_2_points) ∨
  (∃ column, e = KeyError column ∧ row !! column = None ∧
             column ∈ ["Betegnelse"; "x"; "y"; "x1"; "y1"; "x2"; "y2"]).
Proof.
  unfold process_row. intros Hrow.
  destruct (decide (get row "Tabell ID" = Some "261")).
  - apply bind_Raise_inv in Hrow as [Hitem | (betegnelse & _ & Hrow)].
    + apply item_Raise in Hitem as [-> Habsent]. right. eexists.
      split_and!; [done | done | compute_done].
    + destruct (decide (betegnelse = Some "Bardunline")).
      * by apply convert_guy_segments_rows_Raise.
      * by apply convert_ac_linesegments_rows_Raise.
  - destruct (decide (get row "Tabell ID" = Some "109")).
    + by apply convert_overhead_structure_rows_Raise.
    + injection Hrow as <-. left. eexists. split; [done | discriminate].
Qed.

Lemma process_row_raises_only_witness :
  delete "x" Rows.mast_with_z !! "x" = None.
Proof.
  destruct (@process_row_raises_only Reference.runtime
              (delete "x" Rows.mast_with_z) (KeyError "x"))
    as [(m & Hm & _) | (column & Hcolumn & Habsent & _)];
    [reflexivity | discriminate Hm |].
  injection Hcolumn as <-. exact Habsent.
Defined.

(** X5. A record of a known category without a usable identifier fails on
    the identifier, whatever else it holds: when get_uuid would pass over
    every identifier column of the record's assembly path, process_row
    raises "No valid UUID found in fields" with those columns, before it
    looks at status, type or coordinates. *)
Theorem missing_identifier_reported_first `{PyRuntime} (row : Row) :
  get row "Tabell ID" = Some "109" ∨
  (get row "Tabell ID" = Some "261" ∧ is_Some (row !! "Betegnelse")) →
  Forall (skipped row) (identifier_fields row) →
  process_row row
    = Raise (ValueError (No_valid_UUID_found_in_fields (identifier_fields row))).
Proof.
  unfold process_row, identifier_fields.
  intros [H109 | [H261 [betegnelse Hb]]].
  - rewrite H109.
    destruct (decide (Some "109" = Some "261")) as [|_]; [done|].
    destruct (decide (Some "109" = Some "109")) as [_|]; [|done].
    intros Hskip. unfold convert_overhead_structure_rows, get_uuid.
    by rewrite get_uuid_loop_all_skipped.
  - rewrite H261.
    destruct (decide (Some "261" = Some "261")) as [_|]; [|done].
    destruct (decide (Some "261" = Some "109")) as [|_]; [done|].
    unfold item. rewrite Hb. simpl.
    destruct (decide (Some betegnelse = Some (Some "Bardunline")))
      as [[= ->]|Hother]; intros Hskip.
    + destruct (decide (Some "Bardunline" = Some "Bardunline")) as [_|]; [|done].
      unfold convert_guy_segments_rows, get_uuid.
      by rewrite get_uuid_loop_all_skipped.
    + destruct (decide (betegnelse = Some "Bardunline")) as [->|_]; [done|].
      unfold convert_ac_linesegments_rows, get_uuid.
      by rewrite get_uuid_loop_all_skipped.
Qed.

Lemma missing_identifier_reported_first_witness :
  @process_row Reference.runtime Rows.guy_without_uuid
    = Raise (ValueError (No_valid_UUID_found_in_fields ["Guy_uuid"; "ID"])).
Proof.
  apply (@missing_identifier_reported_first Reference.runtime Rows.guy_without_uuid).
  - right. split; [reflexivity | by eexists].
  - apply Forall_cons_2; [|apply Forall_cons_2; [|apply Forall_nil_2]].
    + right. right. by left.
    + by left.
Defined.

(** ** Elevation columns *)

Lemma create_geometry_point_blank_z `{PyRuntime} (x y z z' : option string) :
  truthy z = false → truthy z' = false →
  create_geometry [[x; y; z]] false = create_geometry [[x; y; z']] false.
Proof.
  intros Hz Hz'. unfold create_geometry. simpl.
  by rewrite !not_in_None_empty_truthy, Hz, Hz'.
Qed.

Lemma create_geometry_line_blank_z1 `{PyRuntime} (x1 y1 z1 z1' x2 y2 z2 : option string) :
  truthy z1 = false → truthy z1' = false →
  create_geometry [[x1; y1; z1]; [x2; y2; z2]] true
    = create_geometry [[x1; y1; z1']; [x2; y2; z2]] true.
Proof.
  intros Hz Hz'. unfold create_geometry. simpl.
  by rewrite !not_in_None_empty_truthy, Hz, Hz'.
Qed.

Lemma create_geometry_line_blank_z2 `{PyRuntime} (x1 y1 z1 x2 y2 z2 z2' : option string) :
  truthy z2 = false → truthy z2' = false →
  create_geometry [[x1; y1; z1]; [x2; y2; z2]] true
    = create_geometry [[x1; y1; z1]; [x2; y2; z2']] true.
Proof.
  intros Hz Hz'. unfold create_geometry. simpl.
  rewrite !not_in_None_empty_truthy, Hz, Hz'. by destruct (truthy z1).
Qed.

(** Rewrites every lookup in [r1] of a column other than the one the rows
    may differ in into the lookup in [r2]. *)
Ltac same_lookups Hsame :=
  repeat match goal with
  | |- context [?r !! ?column] =>
      lazymatch type of Hsame with
      | ∀ other, _ → r !! other = _ => rewrite (Hsame column) by discriminate
      end
  end.

Lemma bind_ext {A B} (m : result A) (f g : A → result B) :
  (∀ a, f a = g a) → m ≫= f = m ≫= g.
Proof. intros Hfg. destruct m; simpl; [apply Hfg | done]. Qed.

Lemma bind_assoc {A B C} (m : result A) (f : A → result B) (g : B → result C) :
  (m ≫= f) ≫= g = m ≫= (λ a, f a ≫= g).
Proof. by destruct m. Qed.

Lemma bind_Ok_l {A B} (a : A) (f : A → result B) : Ok a ≫= f = f a.
Proof. done. Qed.

(** Proves two runs of the same steps equal, given the one step [Hstep] in
    which they differ. *)
Ltac same_steps Hstep :=
  repeat first
    [ reflexivity
    | rewrite Hstep
    | rewrite bind_assoc
    | rewrite bind_Ok_l
    | apply bind_ext; intros ?
    | match goal with
      | |- (if ?c then _ else _) = _ => destruct c
      | |- (let '(_, _) := ?pair in _) = _ => destruct pair
      end ].

Lemma mast_references_same `{PyRuntime} (r1 r2 : Row) :
  r1 !! "Mast_1_ObjectID" = r2 !! "Mast_1_ObjectID" →
  r1 !! "Mast_2_ObjectID" = r2 !! "Mast_2_ObjectID" →
  mast_references r1 = mast_references r2.
Proof.
  intros Hfirst Hsecond. unfold mast_references.
  cbn [filter list_filter]. unfold get. rewrite Hfirst, Hsecond.
  repeat case_decide; cbn [for_each]; unfold item;
    by rewrite ?Hfirst, ?Hsecond.
Qed.

(** X6. An elevation column ("z", "z1" or "z2") that is absent, None or
    empty is all one to process_row: two rows that differ only in such a
    column, blank in both, convert to the same feature and CRS, or fail
    with the same error. *)
Theorem blank_elevation_columns_interchangeable `{PyRuntime}
    (r1 r2 : Row) (column : string) :
  column ∈ ["z"; "z1"; "z2"] →
  (∀ other, other ≠ column → r1 !! other = r2 !! other) →
  truthy (get_default r1 column "") = false →
  truthy (get_default r2 column "") = false →
  process_row r1 = process_row r2.
Proof.
  intros Hcolumn Hsame Hblank1 Hblank2.
  assert (mast_references r1 = mast_references r2) as Hmast.
  { apply mast_references_same; apply Hsame; intros <-;
      repeat (apply elem_of_cons in Hcolumn as [? | Hcolumn]; [done|]);
      by apply elem_of_nil in Hcolumn. }
  unfold process_row, convert_overhead_structure_rows,
    convert_guy_segments_rows, convert_ac_linesegments_rows,
    line_coordinates, get_uuid, optional_float, komponentreferanse_of.
  rewrite Hmast. cbn [get_uuid_loop].
  repeat (apply elem_of_cons in Hcolumn as [-> | Hcolumn]);
    [| | | by apply elem_of_nil in Hcolumn].
  - remember (get_default r1 "z" "") as z eqn:Hz.
    remember (get_default r2 "z" "") as z' eqn:Hz'.
    unfold get, item, get_default. same_lookups Hsame.
    same_steps (λ x y, create_geometry_point_blank_z x y z z' Hblank1 Hblank2).
  - remember (get_default r1 "z1" "") as z eqn:Hz.
    remember (get_default r2 "z1" "") as z' eqn:Hz'.
    unfold get, item, get_default. same_lookups Hsame.
    same_steps (λ x1 y1 x2 y2 z2,
                  create_geometry_line_blank_z1 x1 y1 z z' x2 y2 z2 Hblank1 Hblank2).
  - remember (get_default r1 "z2" "") as z eqn:Hz.
    remember (get_default r2 "z2" "") as z' eqn:Hz'.
    unfold get, item, get_default. same_lookups Hsame.
    same_steps (λ x1 y1 z1 x2 y2,
                  create_geometry_line_blank_z2 x1 y1 z1 x2 y2 z z' Hblank1 Hblank2).
Qed.

Lemma blank_elevation_columns_interchangeable_witness :
  @process_row Reference.runtime (delete "z" Rows.mast_without_z)
    = @process_row Reference.runtime Rows.mast_without_z.
Proof.
  apply (@blank_elevation_columns_interchangeable Reference.runtime
           (delete "z" Rows.mast_without_z) Rows.mast_without_z "z").
  - left.
  - intros other Hother. by apply lookup_delete_ne.
  - reflexivity.
  - reflexivity.
Defined.

(** ** The features of the three paths *)

Lemma map_luftspenn_type_not_bardun (value : option string) r :
  map_luftspenn_type value = Ok r → r ≠ bardun.
Proof.
  unfold map_luftspenn_type.
  destruct (dict_get luftspenn_type_mapping value) as [r'|] eqn:Hget; [|done].
  intros [= <-]. apply dict_get_Some in Hget as (s & _ & Hin).
  unfold luftspenn_type_mapping in Hin.
  repeat (apply elem_of_cons in Hin as [[= _ ->] | Hin]; [done|]).
  by apply elem_of_nil in Hin.
Qed.

(** X7. An overhead-structure record (Tabell ID 109) that converts yields
    Mast properties of feature type "NrlMast" on a Point. Its x and y are
    numeric text; when its z is there and not empty, z is numeric too, the
    point is (y, x, z) and the CRS "EPSG:5972"; otherwise the point is
    (y, x) and the CRS "EPSG:25832". *)
Theorem overhead_structure_gives_mast_point `{PyRuntime} (row : Row) feature crs :
  get row "Tabell ID" = Some "109" →
  process_row row = Ok (feature, crs) →
  ∃ p x y fx fy,
    properties feature = Mast p ∧ NrlMast.feature_type p = "NrlMast" ∧
    row !! "x" = Some x ∧ row !! "y" = Some y ∧ numeric x fx ∧ numeric y fy ∧
    if truthy (get_default row "z" "")
    then ∃ fz, numeric (get_default row "z" "") fz ∧
               geometry feature = Point [fy; fx; fz] ∧
               crs = Crs_named "EPSG:5972"
    else geometry feature = Point [fy; fx] ∧ crs = Crs_named "EPSG:25832".
Proof.
  intros H109 [(_ & Hrow) | [(? & _) | (? & _)]]%process_row_Ok; [|congruence..].
  apply overhead_structure_feature in Hrow
    as (u & masttype & status & h & max_height & x & y & point
        & _ & _ & _ & _ & Hx & Hy & Hgeo & ->).
  apply create_geometry_Ok in Hgeo as (has_z & Hz & _ & -> & c & fx & fy & Hc & Hpoint).
  injection Hc as <-. simpl in Hz. rewrite not_in_None_empty_truthy in Hz.
  exists {| NrlMast.komponentident := u;
            NrlMast.status := status;
            NrlMast.verifisert_rapporteringsnøyaktighet :=
              map_location_method (get row "Verifisert nøyaktighet (NRL)");
            NrlMast.feature_type := "NrlMast";
            NrlMast.mast_type := masttype;
            NrlMast.luftfartshinderlyssetting :=
              map_lighting_kind (get row "Luftfartshinderlyssetting(NRL)");
            NrlMast.luftfartshindermerking :=
              map_marking_kind (get row "Luftfartshindermerking (NRL)");
            NrlMast.høydereferanse := h;
            NrlMast.vertikal_avstand := max_height |}, x, y, fx, fy.
  destruct (truthy (get_default row "z" "")); injection Hz as <-; simpl.
  - destruct Hpoint as (fz & Hparse & ->).
    apply parse_coordinates_full in Hparse; [|done].
    apply Forall2_cons_1 in Hparse as [Hfx Hparse].
    apply Forall2_cons_1 in Hparse as [Hfy Hparse].
    apply Forall2_cons_1 in Hparse as [Hfz _].
    split_and!; try done. by exists fz.
  - destruct Hpoint as (Hparse & ->).
    change (take 2 [x; y; get_default row "z" ""]) with [x; y] in Hparse.
    apply parse_coordinates_full in Hparse; [|done].
    apply Forall2_cons_1 in Hparse as [Hfx Hparse].
    apply Forall2_cons_1 in Hparse as [Hfy _].
    by split_and!.
Qed.

Lemma overhead_structure_gives_mast_point_witness :
  ∃ feature p,
    @process_row Reference.runtime Rows.mast_with_z
      = Ok (feature, Crs_named "EPSG:5972") ∧
    properties feature = Mast p ∧ NrlMast.feature_type p = "NrlMast".
Proof.
  assert (∃ feature,
            @process_row Reference.runtime Rows.mast_with_z
              = Ok (feature, Crs_named "EPSG:5972")) as [feature Hrow]
    by (eexists; reflexivity).
  destruct (@overhead_structure_gives_mast_point Reference.runtime
              Rows.mast_with_z feature (Crs_named "EPSG:5972") eq_refl Hrow)
    as (p & x & y & fx & fy & Hp & Htype & _).
  exists feature, p. split; [exact Hrow|]. split; [exact Hp | exact Htype].
Defined.

(** X8. Among the line/guy records (Tabell ID 261) that convert, the span
    type is bardun exactly for those whose Betegnelse is "Bardunline"; for
    the others it is what the "Luftspenntype (NRL)" column resolves to,
    which is never bardun. Only the others carry a list of mast
    references. *)
Theorem bardun_exactly_on_guy_path `{PyRuntime} (row : Row) feature crs :
  get row "Tabell ID" = Some "261" →
  process_row row = Ok (feature, crs) →
  ∃ p,
    properties feature = Luftspenn p ∧
    (NrlLuftspenn.luftspenn_type p = bardun ↔
     row !! "Betegnelse" = Some (Some "Bardunline")) ∧
    (row !! "Betegnelse" ≠ Some (Some "Bardunline") →
     map_luftspenn_type (get row "Luftspenntype (NRL)")
       = Ok (NrlLuftspenn.luftspenn_type p)) ∧
    (NrlLuftspenn.nrl_mast p = None ↔
     row !! "Betegnelse" = Some (Some "Bardunline")).
Proof.
  intros H261 [(? & _) | [(_ & Hguy & Hrow) | (_ & (b & Hb & Hother) & Hrow)]]%process_row_Ok.
  - congruence.
  - apply guy_segment_feature in Hrow as (u & status & cs & line & _ & _ & _ & _ & ->).
    eexists. split; [done|]. simpl. by split_and!.
  - apply ac_linesegment_feature in Hrow
      as (u & status & kind & cs & line & mast & width & _ & _ & Hkind & _ & _ & _ & _ & ->).
    eexists. split; [done|]. simpl.
    assert (row !! "Betegnelse" ≠ Some (Some "Bardunline")) as Hne by congruence.
    split_and!; [|done|done].
    split; [|done]. intros ->. by apply map_luftspenn_type_not_bardun in Hkind.
Qed.

Lemma bardun_exactly_on_guy_path_witness :
  ∃ feature crs p,
    @process_row Reference.runtime Rows.guy = Ok (feature, crs) ∧
    properties feature = Luftspenn p ∧
    NrlLuftspenn.luftspenn_type p = bardun.
Proof.
  assert (∃ feature crs, @process_row Reference.runtime Rows.guy = Ok (feature, crs))
    as (feature & crs & Hrow) by (do 2 eexists; reflexivity).
  destruct (@bardun_exactly_on_guy_path Reference.runtime Rows.guy feature crs
              eq_refl Hrow) as (p & Hp & Hbardun & _).
  exists feature, crs, p. split; [exact Hrow|]. split; [exact Hp|].
  apply Hbardun. reflexivity.
Defined.

(** X9. Whichever path a record takes, the feature it converts to carries
    the status its "Status (NRL)" column resolves to and the identifier
    get_uuid finds in the identifier columns of its path: the
    path-specific column first, "ID" second. So a record converts only
    with an accepted status and a usable identifier. *)
Theorem feature_status_and_identifier_from_row `{PyRuntime} (row : Row) feature crs :
  process_row row = Ok (feature, crs) →
  map_feature_status (get row "Status (NRL)")
    = Ok (status_of (properties feature)) ∧
  get_uuid row (identifier_fields row)
    = Ok (komponentident_of (properties feature)) ∧
  identifier_fields row
    ∈ [["OverheadStructure_uuid"; "ID"]; ["Guy_uuid"; "ID"];
       ["ACLineSegmentSpan_uuid"; "ID"]].
Proof.
  unfold identifier_fields.
  intros [(H109 & Hrow) | [(H261 & Hguy & Hrow) | (H261 & (b & Hb & Hother) & Hrow)]]%process_row_Ok.
  - apply overhead_structure_feature in Hrow
      as (u & masttype & status & h & max_height & x & y & point
          & Hu & _ & Hstatus & _ & _ & _ & _ & ->).
    rewrite decide_True by done. simpl. split_and!; [done | done | left].
  - apply guy_segment_feature in Hrow
      as (u & status & cs & line & Hu & Hstatus & _ & _ & ->).
    rewrite decide_False by congruence. rewrite decide_True by done. simpl.
    split_and!; [done | done | right; left].
  - apply ac_linesegment_feature in Hrow
      as (u & status & kind & cs & line & mast & width
          & Hu & Hstatus & _ & _ & _ & _ & _ & ->).
    rewrite decide_False by congruence. rewrite decide_False by congruence. simpl.
    split_and!; [done | done | right; right; left].
Qed.

Lemma feature_status_and_identifier_from_row_witness :
  ∃ feature crs,
    @process_row Reference.runtime Rows.guy = Ok (feature, crs) ∧
    status_of (properties feature) = eksisterende ∧
    komponentident_of (properties feature)
      = 3415407838755634702436301194385589040%N.
Proof.
  assert (∃ feature crs, @process_row Reference.runtime Rows.guy = Ok (feature, crs))
    as (feature & crs & Hrow) by (do 2 eexists; reflexivity).
  destruct (@feature_status_and_identifier_from_row Reference.runtime
              Rows.guy feature crs Hrow) as (Hstatus & Hu & _).
  exists feature, crs. split; [exact Hrow|]. split.
  - assert (@Ok FeatureStatus eksisterende = Ok (status_of (properties feature)))
      as Heq by exact Hstatus.
    by injection Heq as <-.
  - assert (@Ok N 3415407838755634702436301194385589040%N
            = Ok (komponentident_of (properties feature))) as Heq by exact Hu.
    by injection Heq as <-.
Defined.

(** X10. The accuracy code of a converted feature is "20230101_5-1" or
    "0", and it is "20230101_5-1" exactly when one column holds the text
    "FOR-2020-10-16-2068, §5(1)": the column "Verifisert nøyaktighet (NRL)"
    for an overhead structure and for an AC line, but the column
    "Vertikalavstand meter (NRL)" for a guy segment, whose
    "Verifisert nøyaktighet (NRL)" column is not read. *)
Theorem accuracy_code_column_by_path `{PyRuntime} (row : Row) feature crs :
  process_row row = Ok (feature, crs) →
  (nøyaktighet_of (properties feature) = "20230101_5-1" ∨
   nøyaktighet_of (properties feature) = "0") ∧
  (nøyaktighet_of (properties feature) = "20230101_5-1" ↔
   get row (accuracy_column row) = Some "FOR-2020-10-16-2068, §5(1)") ∧
  (accuracy_column row = "Vertikalavstand meter (NRL)" ↔
   NrlLuftspenn.luftspenn_type <$>
     (match properties feature with Luftspenn p => Some p | Mast _ => None end)
     = Some bardun).
Proof.
  assert (∀ value,
            (map_location_method value = "20230101_5-1" ∨
             map_location_method value = "0") ∧
            (map_location_method value = "20230101_5-1" ↔
             value = Some "FOR-2020-10-16-2068, §5(1)")) as Hcode.
  { intros value. unfold map_location_method.
    destruct (decide (value = Some "FOR-2020-10-16-2068, §5(1)")) as [->|Hne].
    - split; [by left | done].
    - split; [by right|]. split; [done | by intros ?]. }
  unfold accuracy_column.
  intros [(H109 & Hrow) | [(H261 & Hguy & Hrow) | (H261 & (b & Hb & Hother) & Hrow)]]%process_row_Ok.
  - apply overhead_structure_feature in Hrow
      as (u & masttype & status & h & max_height & x & y & point
          & _ & _ & _ & _ & _ & _ & _ & ->).
    rewrite decide_False by (intros [? _]; congruence). simpl.
    split_and!; [apply Hcode | apply Hcode | by split].
  - apply guy_segment_feature in Hrow
      as (u & status & cs & line & _ & _ & _ & _ & ->).
    rewrite decide_True by done. simpl.
    split_and!; [apply Hcode | apply Hcode | by split].
  - apply ac_linesegment_feature in Hrow
      as (u & status & kind & cs & line & mast & width
          & _ & _ & Hkind & _ & _ & _ & _ & ->).
    rewrite decide_False by (intros [_ ?]; congruence). simpl.
    split_and!; [apply Hcode | apply Hcode |].
    split; [done|]. intros [= ->].
    by apply map_luftspenn_type_not_bardun in Hkind.
Qed.

Lemma accuracy_code_column_by_path_witness :
  ∃ feature crs,
    @process_row Reference.runtime
      (<["Verifisert nøyaktighet (NRL)" := Some "FOR-2020-10-16-2068, §5(1)"]>
         Rows.guy) = Ok (feature, crs) ∧
    nøyaktighet_of (properties feature) ≠ "20230101_5-1".
Proof.
  assert (∃ feature crs,
            @process_row Reference.runtime
              (<["Verifisert nøyaktighet (NRL)" := Some "FOR-2020-10-16-2068, §5(1)"]>
                 Rows.guy) = Ok (feature, crs))
    as (feature & crs & Hrow) by (do 2 eexists; reflexivity).
  destruct (@accuracy_code_column_by_path Reference.runtime _ feature crs Hrow)
    as (_ & [Hcode _] & _).
  exists feature, crs. split; [exact Hrow|].
  intros Hcitation. specialize (Hcode Hcitation). discriminate Hcode.
Defined.

(** ** Optional columns *)

Lemma optional_float_Ok `{PyRuntime} (row : Row) (column field_name : string) value :
  optional_float row column field_name = Ok value →
  (value = None ∧ truthy (get row column) = false) ∨
  (∃ f, value = Some f ∧ numeric (get row column) f).
Proof.
  unfold optional_float. destruct (truthy (get row column)) eqn:Hguard.
  - destruct (guarded_item row column Hguard) as [text Hitem].
    rewrite Hitem. simpl. intros Hf. bind_inv. subst value.
    apply item_Ok in Hitem. unfold get. rewrite Hitem. simpl.
    right. exists a. split; [done|]. split.
    + intros [= ->]. unfold get in Hguard. by rewrite Hitem in Hguard.
    + exists text. split; [done|]. by destruct (float_of _); simplify_eq.
  - intros [= <-]. by left.
Qed.

(** X11. The optional numeric attributes (the vertical distance of a mast,
    the line width of an AC line) follow their column: absent, None or
    empty gives None, and never an error; other text gives the float it
    reads as, with a comma or a dot. Text that does not read as a float
    raises "<attribute> is not a valid number", never a KeyError. *)
Theorem optional_numeric_attributes `{PyRuntime} (row : Row) :
  (∀ feature crs,
     process_row row = Ok (feature, crs) →
     match properties feature with
     | Mast p =>
         (NrlMast.vertikal_avstand p = None ∧
          truthy (get row "Vertikalavstand meter (NRL)") = false) ∨
         (∃ f, NrlMast.vertikal_avstand p = Some f ∧
               numeric (get row "Vertikalavstand meter (NRL)") f)
     | Luftspenn p =>
         (NrlLuftspenn.anleggsbredde p = None ∧
          (NrlLuftspenn.luftspenn_type p = bardun ∨
           truthy (get row "Anleggsbredde meter (NRL)") = false)) ∨
         (∃ f, NrlLuftspenn.anleggsbredde p = Some f ∧
               numeric (get row "Anleggsbredde meter (NRL)") f)
     end) ∧
  (∀ column field_name,
     truthy (get row column) = false →
     optional_float row column field_name = Ok None) ∧
  (∀ column field_name text,
     get row column = Some text → text ≠ "" →
     float_of (replace ","%char "."%char text) = None →
     optional_float row column field_name
       = Raise (ValueError (is_not_a_valid_number field_name text))).
Proof.
  split_and!.
  - intros feature crs
      [(_ & Hrow) | [(_ & _ & Hrow) | (_ & _ & Hrow)]]%process_row_Ok.
    + apply overhead_structure_feature in Hrow
        as (u & masttype & status & h & max_height & x & y & point
            & _ & _ & _ & Hheight & _ & _ & _ & ->).
      simpl. by apply optional_float_Ok in Hheight.
    + apply guy_segment_feature in Hrow
        as (u & status & cs & line & _ & _ & _ & _ & ->).
      simpl. left. split; [done | by left].
    + apply ac_linesegment_feature in Hrow
        as (u & status & kind & cs & line & mast & width
            & _ & _ & _ & _ & _ & _ & Hwidth & ->).
      simpl. apply optional_float_Ok in Hwidth as [[-> Hblank] | Hsome].
      * left. split; [done | by right].
      * by right.
  - intros column field_name Hblank. unfold optional_float. by rewrite Hblank.
  - intros column field_name text Hget Htext Hf. unfold optional_float.
    rewrite Hget, (proj2 (truthy_true (Some text))) by eauto.
    unfold get in Hget. unfold item.
    destruct (row !! column) as [[?|]|]; simplify_eq/=. by rewrite Hf.
Qed.

Lemma optional_numeric_attributes_witness :
  @optional_float Reference.runtime
    (<["Anleggsbredde meter (NRL)" := Some "bred"]> Rows.ac_line_lit_and_marked)
    "Anleggsbredde meter (NRL)" "Anleggsbredde"
    = Raise (ValueError (is_not_a_valid_number "Anleggsbredde" "bred")).
Proof.
  apply (proj2 (proj2 (@optional_numeric_attributes Reference.runtime
           (<["Anleggsbredde meter (NRL)" := Some "bred"]>
              Rows.ac_line_lit_and_marked))));
    [reflexivity | discriminate | reflexivity].
Defined.

Lemma for_each_Ok_iff {A B} (f : A → result B) (l : list A) (ys : list B) :
  for_each f l = Ok ys ↔ Forall2 (λ x y, f x = Ok y) l ys.
Proof. split; [apply for_each_Ok | apply for_each_all_Ok]. Qed.

(** A mast-reference column either is blank and contributes nothing, or
    holds a text, which uuid.UUID is given. *)
Lemma mast_reference_column `{PyRuntime} (row : Row) (column : string) :
  truthy (get row column) = false ∨
  ∃ text, truthy (get row column) = true ∧ get row column = Some text ∧
          item row column = Ok (Some text).
Proof.
  destruct (truthy (get row column)) eqn:Hguard; [right | by left].
  destruct (guarded_item row column Hguard) as [text Hitem].
  exists text. split_and!; [done | | done].
  apply item_Ok in Hitem. unfold get. by rewrite Hitem.
Qed.

Lemma mast_references_texts `{PyRuntime} (row : Row) (columns : list string) masts :
  Forall2 (λ column u,
             item row column ≫= (λ value,
               match UUID (default "" value) with
               | Some u => Ok u
               | None => Raise (ValueError (badly_formed_UUID (default "" value)))
               end) = Ok u)
    (filter (λ column, truthy (get row column) = true) columns) masts ↔
  Forall2 (λ text u, UUID text = Some u)
    (omap (λ column, match get row column with
                     | Some text => if truthy (Some text) then Some text else None
                     | None => None
                     end) columns) masts.
Proof.
  revert masts. induction columns as [|column columns IH]; intros masts.
  { split; intros ->%Forall2_nil_inv_l; constructor. }
  destruct (mast_reference_column row column)
    as [Hblank | (text & Hguard & Hget & Hitem)].
  - rewrite filter_cons_False by congruence. cbn [omap list_omap].
    destruct (get row column) as [text|]; [rewrite Hblank|]; apply IH.
  - rewrite filter_cons_True by done. cbn [omap list_omap].
    rewrite Hget in Hguard |- *. rewrite Hguard.
    split; intros Hall.
    + apply Forall2_cons_inv_l in Hall as (u & masts' & Hu & Hrest & ->).
      rewrite Hitem in Hu. simpl in Hu.
      destruct (UUID text) eqn:Htext; [|done]. injection Hu as ->.
      constructor; [done | by apply IH].
    + apply Forall2_cons_inv_l in Hall as (u & masts' & Hu & Hrest & ->).
      constructor; [|by apply IH]. rewrite Hitem. simpl. by rewrite Hu.
Qed.

(** X12. The mast references of an AC line are the UUIDs of the columns
    "Mast_1_ObjectID" and "Mast_2_ObjectID", in that order, leaving out a
    column that is absent, None or empty: at most two. They are all parsed
    or the conversion fails: a text that uuid.UUID rejects raises its
    ValueError, there being no fallback column. *)
Theorem mast_references_in_column_order `{PyRuntime} (row : Row) :
  (∀ masts,
     mast_references row = Ok masts ↔
     Forall2 (λ text u, UUID text = Some u) (mast_reference_texts row) masts) ∧
  (∀ e,
     mast_references row = Raise e →
     ∃ text, text ∈ mast_reference_texts row ∧ UUID text = None ∧
             e = ValueError (badly_formed_UUID text)) ∧
  length (mast_reference_texts row) ≤ 2 ∧
  (∀ feature crs p,
     process_row row = Ok (feature, crs) →
     properties feature = Luftspenn p →
     NrlLuftspenn.luftspenn_type p ≠ bardun →
     ∃ masts, NrlLuftspenn.nrl_mast p = Some masts ∧
              mast_references row = Ok masts).
Proof.
  split_and!.
  - intros masts. unfold mast_references, mast_reference_texts.
    rewrite for_each_Ok_iff. apply mast_references_texts.
  - intros e (column & text & Hcolumn & Hitem & Htext & Hu & ->)%mast_references_Raise.
    exists text. split_and!; [|done..].
    unfold mast_reference_texts. apply list_elem_of_omap. exists column.
    split; [done|]. unfold get. rewrite Hitem. simpl.
    by apply String.eqb_neq in Htext as ->.
  - unfold mast_reference_texts. cbn [omap list_omap].
    destruct (get row "Mast_1_ObjectID") as [?|]; [destruct (truthy _)|];
      (destruct (get row "Mast_2_ObjectID") as [?|]; [destruct (truthy _)|]);
      simpl; lia.
  - intros feature crs p
      [(_ & Hrow) | [(_ & _ & Hrow) | (_ & _ & Hrow)]]%process_row_Ok Hp Hkind.
    + apply overhead_structure_feature in Hrow
        as (? & ? & ? & ? & ? & ? & ? & ? & _ & _ & _ & _ & _ & _ & _ & ->).
      done.
    + apply guy_segment_feature in Hrow as (? & ? & ? & ? & _ & _ & _ & _ & ->).
      simpl in Hp. injection Hp as <-. done.
    + apply ac_linesegment_feature in Hrow
        as (? & ? & ? & ? & ? & masts & ? & _ & _ & _ & _ & _ & Hmasts & _ & ->).
      simpl in Hp. injection Hp as <-. by exists masts.
Qed.

Lemma mast_references_in_column_order_witness :
  @mast_references Reference.runtime
    (<["Mast_2_ObjectID" := Some "550e8400-e29b-41d4-a716-446655440001"]>
       (<["Mast_1_ObjectID" := Some ""]> Rows.ac_line_lit_and_marked))
    = Ok [113059749145936325402354257176981405697%N].
Proof.
  apply (proj1 (@mast_references_in_column_order Reference.runtime
           (<["Mast_2_ObjectID" := Some "550e8400-e29b-41d4-a716-446655440001"]>
              (<["Mast_1_ObjectID" := Some ""]> Rows.ac_line_lit_and_marked)))).
  apply Forall2_cons_2; [reflexivity | apply Forall2_nil_2].
Defined.

(** ** The collections as a whole *)

Lemma process_rows_app `{PyRuntime} (rows1 rows2 : list Row) feature_by_crs :
  process_rows (rows1 ++ rows2) feature_by_crs
    = process_rows rows1 feature_by_crs ≫= process_rows rows2.
Proof.
  revert feature_by_crs. induction rows1 as [|row rows1 IH];
    intros feature_by_crs; simpl; [done|].
  destruct (process_row row) as [[feature crs]|e]; simpl; [apply IH | done].
Qed.

Lemma features_tagged_nonempty `{PyRuntime} (converted : list (Feature * Crs)) tag :
  tag ∈ (λ fc, crs_name_of fc.2) <$> converted →
  features_tagged tag converted ≠ [].
Proof.
  intros ([feature crs] & -> & Hin)%list_elem_of_fmap Hnil.
  assert (feature ∈ features_tagged (crs_name_of crs) converted) as Hfeature
    by (apply elem_of_features_tagged; by exists crs).
  simpl in Hnil. rewrite Hnil in Hfeature. by apply elem_of_nil in Hfeature.
Qed.

(** The features under a tag of the collections built from a batch are the
    features of the batch with that tag. *)
Lemma features_under_grouped `{PyRuntime} (converted : list (Feature * Crs)) tag :
  features_under tag
    ((λ tag, {| crs := Crs_named tag;
                features := features_tagged tag converted |})
       <$> first_occurrences ((λ fc, crs_name_of fc.2) <$> converted))
    = features_tagged tag converted.
Proof.
  unfold features_under.
  assert (∀ ks, NoDup ks →
            concat (features <$>
                      filter (λ c, crs_name_of (crs c) = tag)
                        ((λ tag, {| crs := Crs_named tag;
                                    features := features_tagged tag converted |})
                           <$> ks))
            = if decide (tag ∈ ks) then features_tagged tag converted else [])
    as Hbuckets.
  { induction 1 as [|k ks Hk Hks IH]; [done|].
    rewrite fmap_cons. destruct (decide (k = tag)) as [->|Hne].
    - rewrite filter_cons_True by done. rewrite fmap_cons, concat_cons, IH.
      rewrite decide_False by done. rewrite decide_True by left.
      by rewrite app_nil_r.
    - rewrite filter_cons_False by done. rewrite IH.
      destruct (decide (tag ∈ ks)) as [Hin|Hout].
      + by rewrite decide_True by by right.
      + by rewrite decide_False by (rewrite elem_of_cons; by intros [?|?]). }
  rewrite Hbuckets by apply NoDup_first_occurrences.
  case_decide as Htag; [done|].
  symmetry. apply features_tagged_absent.
  by rewrite <-elem_of_first_occurrences.
Qed.

(** X13. The collections _process_csv_file returns have distinct CRS tags,
    are never empty and are at most two; together they hold one feature
    per row. A batch of no rows gives no collection, and only such a
    batch does. *)
Theorem collections_are_few_distinct_and_full `{PyRuntime}
    (rows : list Row) collections :
  _process_csv_file rows = Ok collections →
  NoDup ((λ c, crs_name_of (crs c)) <$> collections) ∧
  Forall (λ c, features c ≠ []) collections ∧
  length collections ≤ 2 ∧
  length (concat (features <$> collections)) = length rows ∧
  (collections = [] ↔ rows = []).
Proof.
  intros (converted & Hall & ->)%process_csv_file_Ok.
  set (tags := first_occurrences ((λ fc, crs_name_of fc.2) <$> converted)).
  assert (NoDup tags) as Hnodup by apply NoDup_first_occurrences.
  assert (length (concat (features <$>
            ((λ tag, {| crs := Crs_named tag;
                        features := features_tagged tag converted |}) <$> tags)))
          = length rows) as Htotal.
  { rewrite <-list_fmap_compose.
    rewrite (buckets_partition tags converted Hnodup).
    - rewrite length_fmap. symmetry. by eapply Forall2_length.
    - intros fc Hfc. apply elem_of_first_occurrences, list_elem_of_fmap.
      by exists fc. }
  split_and!.
  - rewrite <-list_fmap_compose.
    assert (((λ c, crs_name_of (crs c)) ∘
             (λ tag, {| crs := Crs_named tag;
                        features := features_tagged tag converted |}))
              <$> tags = tags) as ->; [|done].
    etrans; [|apply list_fmap_id]. by apply list_fmap_ext.
  - apply Forall_fmap, Forall_forall. intros tag Htag. simpl.
    apply features_tagged_nonempty. by apply elem_of_first_occurrences.
  - rewrite length_fmap.
    assert (tags ⊆+ ["EPSG:5972"; "EPSG:25832"]) as Hsub.
    { apply NoDup_submseteq; [done|]. intros tag Htag.
      destruct (collection_tag_from_row rows converted tag Hall Htag)
        as (row & feature & crs & _ & Hrow & <-).
      apply process_row_geometry in Hrow as (cs & is_line & Hgeo).
      apply create_geometry_crs in Hgeo as (_ & _ & [-> | ->]); [left | right; left]. }
    by apply submseteq_length in Hsub.
  - exact Htotal.
  - split.
    + intros Hnil. rewrite Hnil in Htotal. simpl in Htotal.
      by destruct rows.
    + intros ->. apply Forall2_nil_inv_l in Hall. by subst converted.
Qed.

Lemma collections_are_few_distinct_and_full_witness :
  ∃ collections,
    @_process_csv_file Reference.runtime
      [Rows.mast_with_z; Rows.guy; Rows.mast_without_z] = Ok collections ∧
    length collections ≤ 2 ∧
    length (concat (features <$> collections)) = 3.
Proof.
  assert (∃ collections,
            @_process_csv_file Reference.runtime
              [Rows.mast_with_z; Rows.guy; Rows.mast_without_z] = Ok collections)
    as [collections Hrows] by (eexists; reflexivity).
  destruct (@collections_are_few_distinct_and_full Reference.runtime _ _ Hrows)
    as (_ & _ & Hfew & Hfull & _).
  exists collections. split; [exact Hrows|]. split; [exact Hfew | exact Hfull].
Defined.

(** X14. Batches compose. If a batch fails, every batch that starts with
    it fails with the same error. If a batch of two parts converts, each
    part converts on its own, and under every CRS tag the features of the
    whole are the features of the first part followed by those of the
    second. *)
Theorem batches_compose `{PyRuntime} (rows1 rows2 : list Row) :
  (∀ e,
     _process_csv_file rows1 = Raise e →
     _process_csv_file (rows1 ++ rows2) = Raise e) ∧
  (∀ collections,
     _process_csv_file (rows1 ++ rows2) = Ok collections →
     ∃ collections1 collections2,
       _process_csv_file rows1 = Ok collections1 ∧
       _process_csv_file rows2 = Ok collections2 ∧
       ∀ tag,
         features_under tag collections
           = features_under tag collections1 ++ features_under tag collections2).
Proof.
  split.
  - intros e. unfold _process_csv_file. rewrite process_rows_app.
    destruct (process_rows rows1 []) as [d|e']; [done|].
    by intros [= ->].
  - intros collections (converted & Hall & ->)%process_csv_file_Ok.
    apply Forall2_app_inv_l in Hall as (conv1 & conv2 & Hall1 & Hall2 & ->).
    do 2 eexists.
    split; [by apply process_csv_file_converted|].
    split; [by apply process_csv_file_converted|].
    intros tag. rewrite !features_under_grouped.
    unfold features_tagged. by rewrite filter_app, fmap_app.
Qed.

Lemma batches_compose_witness :
  @_process_csv_file Reference.runtime
    ([Rows.mast_with_z; Rows.unknown_table] ++ [Rows.mast_without_z])
    = Raise (ValueError (Unknown_Tabell_ID (Some "999"))).
Proof.
  apply (proj1 (@batches_compose Reference.runtime
                  [Rows.mast_with_z; Rows.unknown_table] [Rows.mast_without_z])).
  reflexivity.
Defined.

(** ** The tables of the resolvers *)

(** Goes through the entries of a dict literal that [Hin] says hold a pair. *)
Ltac table_entries Hin :=
  repeat (apply elem_of_cons in Hin as [Hin | Hin]; [simplify_eq|]);
  [.. | by apply elem_of_nil in Hin].

Lemma required_enum_Ok (value : option string) :
  (∀ r, map_luftspenn_type value = Ok r →
        ∃ s, value = Some s ∧ (s, r) ∈ luftspenn_type_mapping) ∧
  (∀ r, map_mast_type value = Ok r →
        ∃ s, value = Some s ∧ (s, r) ∈ mast_type_mapping) ∧
  (∀ r, map_feature_status value = Ok r →
        ∃ s, value = Some s ∧ (s, r) ∈ feature_status_mapping).
Proof.
  unfold map_luftspenn_type, map_mast_type, map_feature_status.
  split_and!; intros r;
    (destruct (dict_get _ value) as [r'|] eqn:Hget; [|done]);
    intros [= <-]; by apply dict_get_Some in Hget.
Qed.

Lemma optional_enum_Some (value : option string) :
  (∀ r, map_lighting_kind value = Some r →
        ∃ s, value = Some s ∧ (s, r) ∈ lighting_kind_mapping) ∧
  (∀ r, map_marking_kind value = Some r →
        ∃ s, value = Some s ∧ (s, r) ∈ marking_kind_mapping).
Proof.
  unfold map_lighting_kind, map_marking_kind.
  split; intros r; destruct (truthy value); cbn [negb]; try done;
    apply dict_get_Some.
Qed.

(** X15. The status resolver accepts exactly two spellings of each status,
    the Norwegian label and the camel-case code: "Eksisterende" and
    "eksisterende", "Planlagt oppført" and "planlagtOppført", "Planlagt
    fjernet" and "planlagtFjernet", "Fjernet" and "fjernet". The other
    resolvers (span type, mast type, lighting, marking) accept one text
    per value: two texts that resolve to the same value are the same. *)
Theorem status_has_two_spellings_others_one :
  (∀ value,
     (map_feature_status value = Ok eksisterende ↔
      value = Some "Eksisterende" ∨ value = Some "eksisterende") ∧
     (map_feature_status value = Ok planlagt_oppført ↔
      value = Some "Planlagt oppført" ∨ value = Some "planlagtOppført") ∧
     (map_feature_status value = Ok planlagt_fjernet ↔
      value = Some "Planlagt fjernet" ∨ value = Some "planlagtFjernet") ∧
     (map_feature_status value = Ok fjernet ↔
      value = Some "Fjernet" ∨ value = Some "fjernet")) ∧
  (∀ value value' r,
     map_luftspenn_type value = Ok r → map_luftspenn_type value' = Ok r →
     value = value') ∧
  (∀ value value' r,
     map_mast_type value = Ok r → map_mast_type value' = Ok r →
     value = value') ∧
  (∀ value value' r,
     map_lighting_kind value = Some r → map_lighting_kind value' = Some r →
     value = value') ∧
  (∀ value value' r,
     map_marking_kind value = Some r → map_marking_kind value' = Some r →
     value = value').
Proof.
  split_and!.
  - intros value. split_and!; (split; [|by intros [-> | ->]]);
      intros (s & -> & Hin)%required_enum_Ok;
      unfold feature_status_mapping in Hin; table_entries Hin;
      subst; try discriminate; auto.
  - intros value value' r (s & -> & Hin)%required_enum_Ok
      (s' & -> & Hin')%required_enum_Ok.
    unfold luftspenn_type_mapping in *. table_entries Hin; table_entries Hin';
      subst; try discriminate; done.
  - intros value value' r (s & -> & Hin)%required_enum_Ok
      (s' & -> & Hin')%required_enum_Ok.
    unfold mast_type_mapping in *. table_entries Hin; table_entries Hin';
      subst; try discriminate; done.
  - intros value value' r (s & -> & Hin)%optional_enum_Some
      (s' & -> & Hin')%optional_enum_Some.
    unfold lighting_kind_mapping in *. table_entries Hin; table_entries Hin';
      subst; try discriminate; done.
  - intros value value' r (s & -> & Hin)%optional_enum_Some
      (s' & -> & Hin')%optional_enum_Some.
    unfold marking_kind_mapping in *. table_entries Hin; table_entries Hin';
      subst; try discriminate; done.
Qed.

Lemma status_has_two_spellings_others_one_witness :
  Some "Mast, lavspent" = Some "Mast, lavspent" ∧
  (Some "planlagtOppført" = Some "Planlagt oppført" ∨
   Some "planlagtOppført" = Some "planlagtOppført").
Proof.
  pose proof status_has_two_spellings_others_one
    as (Hstatus & _ & Hmast & _).
  split.
  - apply (Hmast _ _ lavspentmast); reflexivity.
  - apply (Hstatus (Some "planlagtOppført")). reflexivity.
Defined.

(** ** The columns that matter *)

(** Rewrites every lookup in [r1] of a column of columns_read into the
    lookup in [r2]. *)
Ltac read_lookups Hsame :=
  repeat match goal with
  | |- context [?r !! ?column] =>
      lazymatch type of Hsame with
      | ∀ c, _ → r !! c = _ => rewrite (Hsame column) by compute_done
      end
  end.

(** X16. process_row looks at 26 columns and no other: two rows that agree
    on them convert to the same feature and CRS or raise the same error, so
    any further column of the CSV file, "Luftfartshindermerking(NRL)"
    among them, is ignored. *)
Theorem other_columns_are_ignored `{PyRuntime} (r1 r2 : Row) :
  (∀ column, column ∈ columns_read → r1 !! column = r2 !! column) →
  process_row r1 = process_row r2.
Proof.
  intros Hsame.
  assert (mast_references r1 = mast_references r2) as Hmast
    by (apply mast_references_same; apply Hsame; compute_done).
  unfold process_row, convert_overhead_structure_rows,
    convert_guy_segments_rows, convert_ac_linesegments_rows,
    line_coordinates, get_uuid, optional_float, komponentreferanse_of.
  rewrite Hmast. cbn [get_uuid_loop].
  unfold get, item, get_default. read_lookups Hsame. reflexivity.
Qed.

Lemma other_columns_are_ignored_witness :
  @process_row Reference.runtime
    (delete "Luftfartshindermerking(NRL)" Rows.ac_line_lit_and_marked)
    = @process_row Reference.runtime Rows.ac_line_lit_and_marked.
Proof.
  apply (@other_columns_are_ignored Reference.runtime).
  intros column Hcolumn. apply lookup_delete_ne. intros <-.
  revert Hcolumn. compute_done.
Defined.

(** ** The test data generator *)

(** X17. With --total-elements t, t at least 1, main asks for half of t,
    rounded up, of each of the two kinds: twice that number is t when t is
    even and t + 1 when t is odd. With --total-elements 0 or without the
    option it asks for --num-elements of each kind. *)
Theorem num_each_rounds_half_up (total num_elements : Z) :
  ((1 <= total)%Z →
   (2 * Cli.num_each (Some total) num_elements
      = if Z.even total then total else total + 1)%Z ∧
   (1 <= Cli.num_each (Some total) num_elements)%Z) ∧
  Cli.num_each (Some 0%Z) num_elements = num_elements ∧
  Cli.num_each None num_elements = num_elements.
Proof.
  split; [|done]. intros Htotal. unfold Cli.num_each.
  destruct (Z.eqb_spec total 0) as [->|_]; [lia|].
  destruct (Z.even total) eqn:Heven.
  - apply Z.even_spec in Heven as [k ->].
    replace (2 * k + 1)%Z with (1 + k * 2)%Z by lia.
    rewrite Z.div_add by lia. change (1 / 2)%Z with 0%Z. lia.
  - assert (Z.odd total = true) as [k ->]%Z.odd_spec
      by (by rewrite <-Z.negb_even, Heven).
    replace (2 * k + 1 + 1)%Z with ((k + 1) * 2)%Z by lia.
    rewrite Z.div_mul by lia. lia.
Qed.

Lemma num_each_rounds_half_up_witness :
  (2 * Cli.num_each (Some 7%Z) 2 = 8)%Z.
Proof.
  apply (proj1 (num_each_rounds_half_up 7 2)). lia.
Defined.

(** ** The lenient columns *)

(** The elevation reference of a mast is resolved without failing. *)
Lemma høydereferanse_resolved `{PyRuntime} (row : Row) :
  ∃ h : option Høydereferanse,
    (if truthy (get row "Hoydereferanse (NRL)") then
       value ← item row "Hoydereferanse (NRL)";
       Ok (if decide (lower (default "" value) = "topp") then Some topp
           else if decide (lower (default "" value) = "fot") then Some fot
           else None)
     else Ok None) = Ok h.
Proof.
  destruct (truthy (get row "Hoydereferanse (NRL)")) eqn:Hguard; [|by eexists].
  destruct (guarded_item _ _ Hguard) as [text ->]. by eexists.
Qed.

(** Rewrites every lookup in [r1] of a column that is not lenient into the
    lookup in [r2]. *)
Ltac strict_lookups Hsame :=
  repeat match goal with
  | |- context [?r !! ?column] =>
      lazymatch type of Hsame with
      | ∀ c, _ → r !! c = _ => rewrite (Hsame column) by compute_done
      end
  end.

(** Runs two conversions that share their failing steps side by side. *)
Ltac same_outcome_steps :=
  repeat first
    [ rewrite bind_assoc
    | rewrite bind_Ok_l
    | match goal with
      | |- same_outcome (?m ≫= _) (?m ≫= _) =>
          destruct m as [?|?]; cbn [mbind result_bind]
      | |- same_outcome (let '(_, _) := ?pair in _) _ => destruct pair
      | |- same_outcome (if ?c then _ else _) _ => destruct c
      | |- same_outcome (Raise _) (Raise _) => reflexivity
      | |- same_outcome (Ok _) (Ok _) => by repeat split
      end ].

Lemma lenient_columns_same_outcome `{PyRuntime} (r1 r2 : Row) :
  (∀ column, column ∉ lenient_columns → r1 !! column = r2 !! column) →
  same_outcome (process_row r1) (process_row r2).
Proof.
  intros Hsame.
  assert (mast_references r1 = mast_references r2) as Hmast
    by (apply mast_references_same; apply Hsame; compute_done).
  unfold process_row, convert_overhead_structure_rows,
    convert_guy_segments_rows, convert_ac_linesegments_rows.
  destruct (høydereferanse_resolved r1) as [h1 ->].
  destruct (høydereferanse_resolved r2) as [h2 ->].
  unfold line_coordinates, get_uuid, optional_float, komponentreferanse_of.
  rewrite Hmast. cbn [get_uuid_loop].
  unfold get, item, get_default. strict_lookups Hsame.
  same_outcome_steps.
Qed.

(** X18. The columns of lighting, marking, elevation reference and
    verified accuracy never make a record fail: two rows that differ only
    in them raise the same error, or both convert, to features of the
    same geometry, CRS, status and identifier. Unrecognised text in these
    columns is absorbed. *)
Theorem lenient_columns_never_fail_a_record `{PyRuntime} (r1 r2 : Row) :
  (∀ column, column ∉ lenient_columns → r1 !! column = r2 !! column) →
  (∀ e, process_row r1 = Raise e ↔ process_row r2 = Raise e) ∧
  (∀ f1 crs,
     process_row r1 = Ok (f1, crs) →
     ∃ f2, process_row r2 = Ok (f2, crs) ∧
           geometry f2 = geometry f1 ∧
           status_of (properties f2) = status_of (properties f1) ∧
           komponentident_of (properties f2) = komponentident_of (properties f1)).
Proof.
  intros Hsame. pose proof (lenient_columns_same_outcome r1 r2 Hsame) as Hout.
  unfold same_outcome in Hout.
  destruct (process_row r1) as [[f1 c1]|e1], (process_row r2) as [[f2 c2]|e2];
    try done.
  - destruct Hout as (-> & Hgeo & Hstatus & Hu). split; [done|].
    intros f crs [= <- <-]. by exists f2.
  - subst e2. split; [|done]. intros e. by split.
Qed.

Lemma lenient_columns_never_fail_a_record_witness :
  ∃ feature,
    @process_row Reference.runtime
      (<["Luftfartshinderlyssetting(NRL)" := Some "Blinkende"]> Rows.mast_with_z)
      = Ok (feature, Crs_named "EPSG:5972").
Proof.
  assert (∃ feature,
            @process_row Reference.runtime Rows.mast_with_z
              = Ok (feature, Crs_named "EPSG:5972")) as [f1 Hrow]
    by (eexists; reflexivity).
  destruct (proj2 (@lenient_columns_never_fail_a_record Reference.runtime
              Rows.mast_with_z
              (<["Luftfartshinderlyssetting(NRL)" := Some "Blinkende"]>
                 Rows.mast_with_z)
              ltac:(intros column Hcolumn; symmetry; apply lookup_insert_ne;
                    intros <-; apply Hcolumn; compute_done))
              f1 (Crs_named "EPSG:5972") Hrow) as (f2 & Hrow2 & _).
  exists f2. exact Hrow2.
Defined.
